(** * HSS boot service: a shallow embedding of [services/boot/hss_boot_service.c]

    The boot service of the Hart Software Services runs on the E51 monitor
    hart.  It owns four cooperative state machines, one per U54 application
    hart, that set up PMPs, zero-initialise and download the chunks of a
    registered boot image and finally hand the hart over to its entry point.

    The file is organised as the C source is:
    - the data of the boot image and of the state machines;
    - a state-and-fault monad in which the handlers are written;
    - the collaborators the source calls and does not define (IPI transport,
      triggers, clock), kept to their contracts;
    - the helper functions, the state handlers and the public API;
    - example images and states, and the definitions the properties speak in;
    - the properties. *)

From Stdlib Require Import ZArith List String Bool Lia.
From stdpp Require Import base list.
Import ListNotations.
Local Open Scope Z_scope.

(** ** Fixed-width integers

    [uint32_t] and [size_t]/[uintptr_t] (64 bits on the RV64 target) are
    modelled as [Z] with the wrap-around written at the operations that can
    overflow. *)

Definition wrap32 (x : Z) : Z := x mod 2 ^ 32.
Definition wrap64 (x : Z) : Z := x mod 2 ^ 64.

(** [~x] on a 32-bit unsigned operand. *)
Definition not32 (x : Z) : Z := Z.lxor (wrap32 x) 4294967295.

(** [BIT(n)] and [1u << n]. *)
Definition BIT (n : nat) : Z := wrap32 (Z.shiftl 1 (Z.of_nat n)).

(** C truth value of an integer expression. *)
Definition truthy (x : Z) : bool := negb (x =? 0).

(** ** Hart identifiers ([enum HSSHartId])

    The source uses the enumerators as array indices ([hart[target-1]],
    [bootComplete[hartId]], [1u << peer]); they are kept as numbers. *)

Definition HSSHartId := nat.
Definition HSS_HART_E51 : HSSHartId := 0%nat.
Definition HSS_HART_U54_1 : HSSHartId := 1%nat.
Definition HSS_HART_U54_2 : HSSHartId := 2%nat.
Definition HSS_HART_U54_3 : HSSHartId := 3%nat.
Definition HSS_HART_U54_4 : HSSHartId := 4%nat.
Definition HSS_HART_NUM_PEERS : HSSHartId := 5%nat.
Definition HSS_HART_ALL : HSSHartId := HSS_HART_NUM_PEERS.
Definition MAX_NUM_HARTS : nat := 5%nat.

Definition BOOT_SUB_CHUNK_SIZE : Z := 256.

(** ** Boot image ([struct HSS_BootImage] and its tables) *)

Record HSS_BootChunkDesc := {
  chunk_owner : Z;
  chunk_loadAddr : Z;
  chunk_execAddr : Z;
  chunk_size : Z
}.

Record HSS_BootZIChunkDesc := {
  zi_owner : Z;
  zi_execAddr : Z;
  zi_size : Z
}.

Record HSS_BootHartDesc := {
  name : string;
  entryPoint : Z;
  privMode : Z;
  numChunks : Z;
  firstChunk : nat;
  lastChunk : Z;
  flags : Z
}.

(** The header fields the service reads.  [hart] is the array
    [hart[MAX_NUM_HARTS-1]], read at [target-1]; [chunkTable] and
    [ziChunkTable] are the arrays found at [chunkTableOffset] and
    [ziChunkTableOffset] from the image base, read by element index.  They
    are total, as memory is: what ends a walk is the sentinel of size zero,
    not a length.  [image_base] is the address the image sits at, the value
    of a pointer to it. *)
Record HSS_BootImage := {
  image_base : Z;
  magic : Z;
  version : Z;
  headerCrc : Z;
  signature : list Z;
  set_name : string;
  chunkTableOffset : Z;
  ziChunkTableOffset : Z;
  hart : nat -> HSS_BootHartDesc;
  chunkTable : nat -> HSS_BootChunkDesc;
  ziChunkTable : nat -> HSS_BootZIChunkDesc
}.

(** ** States ([enum BootStatesEnum]) *)

Inductive BootStatesEnum :=
| BOOT_INITIALIZATION
| BOOT_SETUP_PMP
| BOOT_SETUP_PMP_COMPLETE
| BOOT_ZERO_INIT_CHUNKS
| BOOT_DOWNLOAD_CHUNKS
| BOOT_OPENSBI_INIT
| BOOT_WAIT
| BOOT_COMPLETE
| BOOT_IDLE
| BOOT_ERROR.

Definition BootStatesEnum_eqb (a b : BootStatesEnum) : bool :=
  match a, b with
  | BOOT_INITIALIZATION, BOOT_INITIALIZATION
  | BOOT_SETUP_PMP, BOOT_SETUP_PMP
  | BOOT_SETUP_PMP_COMPLETE, BOOT_SETUP_PMP_COMPLETE
  | BOOT_ZERO_INIT_CHUNKS, BOOT_ZERO_INIT_CHUNKS
  | BOOT_DOWNLOAD_CHUNKS, BOOT_DOWNLOAD_CHUNKS
  | BOOT_OPENSBI_INIT, BOOT_OPENSBI_INIT
  | BOOT_WAIT, BOOT_WAIT
  | BOOT_COMPLETE, BOOT_COMPLETE
  | BOOT_IDLE, BOOT_IDLE
  | BOOT_ERROR, BOOT_ERROR => true
  | _, _ => false
  end.

(** ** Per-hart data ([struct HSS_Boot_LocalData]) and machines

    [pChunk] and [pZiChunk] point into the image's tables: they are kept as
    element indices from the table base. *)

Record HSS_Boot_LocalData := {
  target : HSSHartId;
  pChunk : nat;
  pZiChunk : nat;
  chunkCount : Z;
  ziChunkCount : Z;
  subChunkOffset : Z;
  msgIndex : Z;
  hartMask : Z;
  perfCtr : Z;
  iterator : Z;
  ancilliaryData : Z;
  msgIndexAux : list Z
}.

Record StateMachine := {
  state : BootStatesEnum;
  prevState : option BootStatesEnum;
  pMachineName : string;
  startTime : Z;
  executionCount : Z;
  pInstanceData : HSS_Boot_LocalData
}.

(** ** What the service does to the outside: the trace *)

Inductive LogLevel := LOG_NORMAL | LOG_STATUS | LOG_WARN | LOG_ERROR.

Inductive IPIMsg :=
| IPI_MSG_PMP_SETUP
| IPI_MSG_OPENSBI_INIT
| IPI_MSG_GOTO
| IPI_MSG_BOOT_REQUEST.

Inductive TriggerEvent :=
| EVENT_DDR_TRAINED
| EVENT_STARTUP_COMPLETE
| EVENT_BOOT_COMPLETE
| EVENT_POST_BOOT.

Definition TriggerEvent_eqb (a b : TriggerEvent) : bool :=
  match a, b with
  | EVENT_DDR_TRAINED, EVENT_DDR_TRAINED
  | EVENT_STARTUP_COMPLETE, EVENT_STARTUP_COMPLETE
  | EVENT_BOOT_COMPLETE, EVENT_BOOT_COMPLETE
  | EVENT_POST_BOOT, EVENT_POST_BOOT => true
  | _, _ => false
  end.

Inductive U54State := HSS_State_Idle | HSS_State_Booting.

Inductive Event :=
| memcpy_via_pdma (dst src n : Z)
| memset0 (dst n : Z)
| debug_printf (lvl : LogLevel) (what : string)
| ipi_alloc (idx : Z)
| ipi_deliver (idx : Z) (tgt : HSSHartId) (msg : IPIMsg) (imm p1 p2 : Z) (ok : bool)
| ipi_free (idx : Z)
| ipi_consume_intent (tgt : HSSHartId) (msg : IPIMsg)
| domains_register_hart (peer boot : HSSHartId)
| domains_deregister_hart (peer : HSSHartId)
| domains_register_boot_hart (nm : string) (mask : Z) (boot : HSSHartId)
    (priv entry arg1 cold warm : Z)
| init_pmp (h : HSSHartId)
| mss_set_apb_bus_cr (v : Z)
| u54_set_state (h : HSSHartId) (s : U54State)
| trigger_notify (e : TriggerEvent)
| perfctr_allocate (nm : string)
| perfctr_lap (ctr : Z)
| gpio_ui_report_image_good_crc
| ipi_send (tgt : HSSHartId) (msg : IPIMsg) (txid imm p1 p2 : Z)
| jump_to (entry : Z).

(** ** Build configuration and platform

    [config.h] and the headers of the collaborators are not part of this
    file: the switches, constants and oracles the source takes from them are
    the fields of [Platform]. *)

Record Config := {
  CONFIG_SERVICE_BOOT : bool;
  CONFIG_CRYPTO_SIGNING : bool;
  CONFIG_PROVIDE_DTB : bool;
  CONFIG_SERVICE_OPENSBI_RPROC : bool;
  CONFIG_SERVICE_BOOT_CUSTOM_FLOW : bool;
  CONFIG_DEBUG_CHUNK_DOWNLOADS : bool;
  CONFIG_SERVICE_GPIO_UI : bool
}.

Record Platform := {
  config : Config;
  ONE_SEC : Z;
  IPI_MAX_NUM_OUTSTANDING_COMPLETES : Z;
  mHSS_BOOT_MAGIC : Z;
  mHSS_COMPRESSED_MAGIC : Z;
  BOOT_FLAG_ANCILLIARY_DATA : Z;
  BOOT_FLAG_SKIP_OPENSBI : Z;
  BOOT_FLAG_SKIP_AUTOBOOT : Z;
  BOOT_FLAG_ALLOW_COLD_REBOOT : Z;
  BOOT_FLAG_ALLOW_WARM_REBOOT : Z;
  LIBERO_SETTING_APBBUS_CR : Z;
  PRV_M : Z;
  RPROC_BOOT : Z;
  PERF_CTR_UNINITIALIZED : Z;
  (* address of the DTB linked into the HSS *)
  builtin_dtb : Z;
  (* sizeof(struct HSS_BootImage), sizeof(struct HSS_BootImage_v0) *)
  sizeof_HSS_BootImage : nat;
  sizeof_HSS_BootImage_v0 : nat;
  (* the bytes of a header object, as CRC32_calculate reads them *)
  object_bytes : HSS_BootImage -> list Z;
  CRC32_calculate : list Z -> Z;
  HSS_Boot_Secure_CheckCodeSigning : HSS_BootImage -> bool;
  HSS_PMP_CheckWrite : HSSHartId -> Z -> Z -> bool;
  HSS_DDR_IsAddrInDDR : Z -> bool;
  (* the counter the performance-counter service hands out for a name *)
  perfctr_index : string -> Z;
  (* the n-th reading of the tick counter *)
  clock : nat -> Z;
  (* whether the transport accepts a message for delivery *)
  ipi_deliver_ok : Z -> HSSHartId -> IPIMsg -> bool
}.

(** ** Global state of the service and of its collaborators *)

Record World := {
  pBootImage : option HSS_BootImage;
  pmpSetupFlag : list bool;
  bootComplete : list Z;
  BOOT_FAIL_CR : Z;
  MSS_STATUS : Z;
  notified : list TriggerEvent;
  ipi_in_use : list Z;
  ipi_completed : list Z;
  clock_reads : nat;
  trace : list Event
}.

(** The state a handler runs in: its own machine and the globals. *)
Record Ctx := {
  self : StateMachine;
  env : World
}.

(** The state the public API runs in: the four machines of [bootMachine]
    and the globals. *)
Record System := {
  boot_service : list StateMachine;
  sys : World
}.

(** ** Field updates *)

Definition set_state (s : BootStatesEnum) (m : StateMachine) : StateMachine :=
  {| state := s; prevState := prevState m;
     pMachineName := pMachineName m; startTime := startTime m;
     executionCount := executionCount m; pInstanceData := pInstanceData m |}.

Definition set_prevState (p : option BootStatesEnum) (m : StateMachine) : StateMachine :=
  {| state := state m; prevState := p;
     pMachineName := pMachineName m; startTime := startTime m;
     executionCount := executionCount m; pInstanceData := pInstanceData m |}.

Definition set_startTime (t : Z) (m : StateMachine) : StateMachine :=
  {| state := state m; prevState := prevState m;
     pMachineName := pMachineName m; startTime := t;
     executionCount := executionCount m; pInstanceData := pInstanceData m |}.

Definition set_executionCount (n : Z) (m : StateMachine) : StateMachine :=
  {| state := state m; prevState := prevState m;
     pMachineName := pMachineName m; startTime := startTime m;
     executionCount := n; pInstanceData := pInstanceData m |}.

Definition set_pInstanceData (d : HSS_Boot_LocalData) (m : StateMachine) : StateMachine :=
  {| state := state m; prevState := prevState m;
     pMachineName := pMachineName m; startTime := startTime m;
     executionCount := executionCount m; pInstanceData := d |}.

Definition set_pChunk (v : nat) (d : HSS_Boot_LocalData) : HSS_Boot_LocalData :=
  {| target := target d; pChunk := v; pZiChunk := pZiChunk d;
     chunkCount := chunkCount d; ziChunkCount := ziChunkCount d;
     subChunkOffset := subChunkOffset d; msgIndex := msgIndex d;
     hartMask := hartMask d; perfCtr := perfCtr d; iterator := iterator d;
     ancilliaryData := ancilliaryData d; msgIndexAux := msgIndexAux d |}.

Definition set_pZiChunk (v : nat) (d : HSS_Boot_LocalData) : HSS_Boot_LocalData :=
  {| target := target d; pChunk := pChunk d; pZiChunk := v;
     chunkCount := chunkCount d; ziChunkCount := ziChunkCount d;
     subChunkOffset := subChunkOffset d; msgIndex := msgIndex d;
     hartMask := hartMask d; perfCtr := perfCtr d; iterator := iterator d;
     ancilliaryData := ancilliaryData d; msgIndexAux := msgIndexAux d |}.

Definition set_chunkCount (v : Z) (d : HSS_Boot_LocalData) : HSS_Boot_LocalData :=
  {| target := target d; pChunk := pChunk d; pZiChunk := pZiChunk d;
     chunkCount := v; ziChunkCount := ziChunkCount d;
     subChunkOffset := subChunkOffset d; msgIndex := msgIndex d;
     hartMask := hartMask d; perfCtr := perfCtr d; iterator := iterator d;
     ancilliaryData := ancilliaryData d; msgIndexAux := msgIndexAux d |}.

Definition set_subChunkOffset (v : Z) (d : HSS_Boot_LocalData) : HSS_Boot_LocalData :=
  {| target := target d; pChunk := pChunk d; pZiChunk := pZiChunk d;
     chunkCount := chunkCount d; ziChunkCount := ziChunkCount d;
     subChunkOffset := v; msgIndex := msgIndex d;
     hartMask := hartMask d; perfCtr := perfCtr d; iterator := iterator d;
     ancilliaryData := ancilliaryData d; msgIndexAux := msgIndexAux d |}.

Definition set_msgIndex (v : Z) (d : HSS_Boot_LocalData) : HSS_Boot_LocalData :=
  {| target := target d; pChunk := pChunk d; pZiChunk := pZiChunk d;
     chunkCount := chunkCount d; ziChunkCount := ziChunkCount d;
     subChunkOffset := subChunkOffset d; msgIndex := v;
     hartMask := hartMask d; perfCtr := perfCtr d; iterator := iterator d;
     ancilliaryData := ancilliaryData d; msgIndexAux := msgIndexAux d |}.

Definition set_hartMask (v : Z) (d : HSS_Boot_LocalData) : HSS_Boot_LocalData :=
  {| target := target d; pChunk := pChunk d; pZiChunk := pZiChunk d;
     chunkCount := chunkCount d; ziChunkCount := ziChunkCount d;
     subChunkOffset := subChunkOffset d; msgIndex := msgIndex d;
     hartMask := v; perfCtr := perfCtr d; iterator := iterator d;
     ancilliaryData := ancilliaryData d; msgIndexAux := msgIndexAux d |}.

Definition set_perfCtr (v : Z) (d : HSS_Boot_LocalData) : HSS_Boot_LocalData :=
  {| target := target d; pChunk := pChunk d; pZiChunk := pZiChunk d;
     chunkCount := chunkCount d; ziChunkCount := ziChunkCount d;
     subChunkOffset := subChunkOffset d; msgIndex := msgIndex d;
     hartMask := hartMask d; perfCtr := v; iterator := iterator d;
     ancilliaryData := ancilliaryData d; msgIndexAux := msgIndexAux d |}.

Definition set_iterator (v : Z) (d : HSS_Boot_LocalData) : HSS_Boot_LocalData :=
  {| target := target d; pChunk := pChunk d; pZiChunk := pZiChunk d;
     chunkCount := chunkCount d; ziChunkCount := ziChunkCount d;
     subChunkOffset := subChunkOffset d; msgIndex := msgIndex d;
     hartMask := hartMask d; perfCtr := perfCtr d; iterator := v;
     ancilliaryData := ancilliaryData d; msgIndexAux := msgIndexAux d |}.

Definition set_ancilliaryData (v : Z) (d : HSS_Boot_LocalData) : HSS_Boot_LocalData :=
  {| target := target d; pChunk := pChunk d; pZiChunk := pZiChunk d;
     chunkCount := chunkCount d; ziChunkCount := ziChunkCount d;
     subChunkOffset := subChunkOffset d; msgIndex := msgIndex d;
     hartMask := hartMask d; perfCtr := perfCtr d; iterator := iterator d;
     ancilliaryData := v; msgIndexAux := msgIndexAux d |}.

Definition set_msgIndexAux (v : list Z) (d : HSS_Boot_LocalData) : HSS_Boot_LocalData :=
  {| target := target d; pChunk := pChunk d; pZiChunk := pZiChunk d;
     chunkCount := chunkCount d; ziChunkCount := ziChunkCount d;
     subChunkOffset := subChunkOffset d; msgIndex := msgIndex d;
     hartMask := hartMask d; perfCtr := perfCtr d; iterator := iterator d;
     ancilliaryData := ancilliaryData d; msgIndexAux := v |}.

Definition set_pBootImage (v : option HSS_BootImage) (w : World) : World :=
  {| pBootImage := v; pmpSetupFlag := pmpSetupFlag w; bootComplete := bootComplete w;
     BOOT_FAIL_CR := BOOT_FAIL_CR w; MSS_STATUS := MSS_STATUS w; notified := notified w;
     ipi_in_use := ipi_in_use w; ipi_completed := ipi_completed w;
     clock_reads := clock_reads w; trace := trace w |}.

Definition set_pmpSetupFlag (v : list bool) (w : World) : World :=
  {| pBootImage := pBootImage w; pmpSetupFlag := v; bootComplete := bootComplete w;
     BOOT_FAIL_CR := BOOT_FAIL_CR w; MSS_STATUS := MSS_STATUS w; notified := notified w;
     ipi_in_use := ipi_in_use w; ipi_completed := ipi_completed w;
     clock_reads := clock_reads w; trace := trace w |}.

Definition set_bootComplete (v : list Z) (w : World) : World :=
  {| pBootImage := pBootImage w; pmpSetupFlag := pmpSetupFlag w; bootComplete := v;
     BOOT_FAIL_CR := BOOT_FAIL_CR w; MSS_STATUS := MSS_STATUS w; notified := notified w;
     ipi_in_use := ipi_in_use w; ipi_completed := ipi_completed w;
     clock_reads := clock_reads w; trace := trace w |}.

Definition set_BOOT_FAIL_CR (v : Z) (w : World) : World :=
  {| pBootImage := pBootImage w; pmpSetupFlag := pmpSetupFlag w; bootComplete := bootComplete w;
     BOOT_FAIL_CR := v; MSS_STATUS := MSS_STATUS w; notified := notified w;
     ipi_in_use := ipi_in_use w; ipi_completed := ipi_completed w;
     clock_reads := clock_reads w; trace := trace w |}.

Definition set_MSS_STATUS (v : Z) (w : World) : World :=
  {| pBootImage := pBootImage w; pmpSetupFlag := pmpSetupFlag w; bootComplete := bootComplete w;
     BOOT_FAIL_CR := BOOT_FAIL_CR w; MSS_STATUS := v; notified := notified w;
     ipi_in_use := ipi_in_use w; ipi_completed := ipi_completed w;
     clock_reads := clock_reads w; trace := trace w |}.

Definition set_notified (v : list TriggerEvent) (w : World) : World :=
  {| pBootImage := pBootImage w; pmpSetupFlag := pmpSetupFlag w; bootComplete := bootComplete w;
     BOOT_FAIL_CR := BOOT_FAIL_CR w; MSS_STATUS := MSS_STATUS w; notified := v;
     ipi_in_use := ipi_in_use w; ipi_completed := ipi_completed w;
     clock_reads := clock_reads w; trace := trace w |}.

Definition set_ipi_in_use (v : list Z) (w : World) : World :=
  {| pBootImage := pBootImage w; pmpSetupFlag := pmpSetupFlag w; bootComplete := bootComplete w;
     BOOT_FAIL_CR := BOOT_FAIL_CR w; MSS_STATUS := MSS_STATUS w; notified := notified w;
     ipi_in_use := v; ipi_completed := ipi_completed w;
     clock_reads := clock_reads w; trace := trace w |}.

Definition set_clock_reads (v : nat) (w : World) : World :=
  {| pBootImage := pBootImage w; pmpSetupFlag := pmpSetupFlag w; bootComplete := bootComplete w;
     BOOT_FAIL_CR := BOOT_FAIL_CR w; MSS_STATUS := MSS_STATUS w; notified := notified w;
     ipi_in_use := ipi_in_use w; ipi_completed := ipi_completed w;
     clock_reads := v; trace := trace w |}.

Definition set_trace (v : list Event) (w : World) : World :=
  {| pBootImage := pBootImage w; pmpSetupFlag := pmpSetupFlag w; bootComplete := bootComplete w;
     BOOT_FAIL_CR := BOOT_FAIL_CR w; MSS_STATUS := MSS_STATUS w; notified := notified w;
     ipi_in_use := ipi_in_use w; ipi_completed := ipi_completed w;
     clock_reads := clock_reads w; trace := v |}.

Definition set_self (m : StateMachine) (c : Ctx) : Ctx := {| self := m; env := env c |}.
Definition set_env (w : World) (c : Ctx) : Ctx := {| self := self c; env := w |}.
Definition set_boot_service (l : list StateMachine) (s : System) : System :=
  {| boot_service := l; sys := sys s |}.
Definition set_sys (w : World) (s : System) : System :=
  {| boot_service := boot_service s; sys := w |}.

(** ** The monad of the handlers

    A computation reads and writes a state and either returns or stops at a
    fault: a failed [assert] or the dereference of a null [pBootImage].
    [OutOfFuel] belongs to the model alone: it ends the [while] loops of
    [HSS_Boot_Custom] when the bound given for them is used up. *)

Inductive Fault :=
| AssertFailed (what : string)
| NullPointer (what : string)
| OutOfFuel.

Inductive Outcome (S A : Type) :=
| Done (a : A) (s : S)
| Stopped (f : Fault) (s : S).
Arguments Done {S A} a s.
Arguments Stopped {S A} f s.

Definition M (S A : Type) : Type := S -> Outcome S A.

#[export] Instance M_ret {S} : MRet (M S) := fun A a s => Done a s.
#[export] Instance M_bind {S} : MBind (M S) := fun A B f m s =>
  match m s with
  | Done a s' => f a s'
  | Stopped e s' => Stopped e s'
  end.

Definition get {S} : M S S := fun s => Done s s.
Definition gets {S A} (f : S -> A) : M S A := fun s => Done (f s) s.
Definition modify {S} (f : S -> S) : M S unit := fun s => Done tt (f s).
Definition stop {S A} (e : Fault) : M S A := fun s => Stopped e s.

Definition assert {S} (b : bool) (what : string) : M S unit :=
  if b then mret tt else stop (AssertFailed what).

Definition when {S} (b : bool) (m : M S unit) : M S unit :=
  if b then m else mret tt.

(** [for (i = 0; i < ARRAY_SIZE(l); i++)] with an accumulator. *)
Fixpoint for_each {S A B} (l : list A) (acc : B) (body : A -> B -> M S B) : M S B :=
  match l with
  | [] => mret acc
  | x :: l' => acc' ← body x acc; for_each l' acc' body
  end.

(** Running a computation on the globals from a handler or from the API. *)
Definition in_world {A} (m : M World A) : M Ctx A := fun c =>
  match m (env c) with
  | Done a w => Done a (set_env w c)
  | Stopped e w => Stopped e (set_env w c)
  end.

Definition in_sys {A} (m : M World A) : M System A := fun s =>
  match m (sys s) with
  | Done a w => Done a (set_sys w s)
  | Stopped e w => Stopped e (set_sys w s)
  end.

(** The final state of a computation, fault or not. *)
Definition final {S A} (o : Outcome S A) : S :=
  match o with Done _ s => s | Stopped _ s => s end.

Definition result {S A} (o : Outcome S A) : option A :=
  match o with Done a _ => Some a | Stopped _ _ => None end.

Definition mem_Z (x : Z) (l : list Z) : bool := existsb (Z.eqb x) l.
Definition remove_Z (x : Z) (l : list Z) : list Z :=
  List.filter (fun y => negb (Z.eqb x y)) l.

Section BootService.

Variable P : Platform.

Local Abbreviation NO_MSG := (IPI_MAX_NUM_OUTSTANDING_COMPLETES P).

Definition BOOT_SETUP_PMP_COMPLETE_TIMEOUT : Z := wrap64 (ONE_SEC P * 1).
Definition BOOT_WAIT_TIMEOUT : Z := wrap64 (ONE_SEC P * 5).

(** The table [bootMachine]: the machine of entry [i] is [boot_service[i]]
    of [System], its hart is the second component. *)
Definition bootMachine : list (nat * HSSHartId) :=
  [(0%nat, HSS_HART_U54_1); (1%nat, HSS_HART_U54_2);
   (2%nat, HSS_HART_U54_3); (3%nat, HSS_HART_U54_4)].

(** ** Collaborators *)

(** A call that leaves the service is appended to the trace. *)
Definition emit (e : Event) : M World unit :=
  modify (fun w => set_trace (trace w ++ [e]) w).

(** The logging macro of [hss_debug.h]: the level and the message, without
    its arguments. *)
Definition mHSS_DEBUG_PRINTF (lvl : LogLevel) (what : string) : M World unit :=
  emit (debug_printf lvl what).

(** Modelled from the spec: the tick counter of [hss_clock.h], which is not
    part of this file.  Every call reads the counter once. *)
Definition HSS_GetTime : M World Z := fun w =>
  Done (clock P (clock_reads w)) (set_clock_reads (S (clock_reads w)) w).

(** Modelled from the spec: the wall-clock timeout check of [hss_clock.h],
    true once the counter has passed [startTick + durationInTicks]. *)
Definition HSS_Timer_IsElapsed (startTick durationInTicks : Z) : M World bool :=
  now ← HSS_GetTime;
  mret (wrap64 (startTick + durationInTicks) <? now).

(** Modelled from the spec: the publish/subscribe events of the trigger
    service; notifying is idempotent. *)
Definition HSS_Trigger_IsNotified (e : TriggerEvent) : M World bool :=
  gets (fun w => existsb (TriggerEvent_eqb e) (notified w)).

(** Modelled from the spec: notifying an event of the trigger service marks
    it as fired, once. *)
Definition HSS_Trigger_Notify (e : TriggerEvent) : M World unit :=
  already ← HSS_Trigger_IsNotified e;
  when (negb already) (modify (fun w => set_notified (e :: notified w) w));;
  emit (trigger_notify e).

(** Modelled from the spec: the slots of the IPI coordinator, the indices
    0 .. IPI_MAX_NUM_OUTSTANDING_COMPLETES-1, the bound itself being the
    sentinel for no slot.  [alloc] hands out the lowest free one and leaves
    [*indexOut] alone when there is none. *)
Definition ipi_slots : list Z :=
  map Z.of_nat (seq 0 (Z.to_nat NO_MSG)).

(** Modelled from the spec: [alloc(&idx) -> bool] of the IPI coordinator;
    [Some idx] is a success that stored [idx], [None] a failure. *)
Definition IPI_MessageAlloc : M World (option Z) := fun w =>
  match find (fun i => negb (mem_Z i (ipi_in_use w))) ipi_slots with
  | Some i => Done (Some i) (set_trace (trace w ++ [ipi_alloc i])
                               (set_ipi_in_use (i :: ipi_in_use w) w))
  | None => Done None w
  end.

(** Modelled from the spec: [deliver(idx, target, msg, arg, ptr, ptr2) -> bool]
    of the IPI coordinator; whether the transport accepts the message is the
    platform's [ipi_deliver_ok]. *)
Definition IPI_MessageDeliver (idx : Z) (tgt : HSSHartId) (msg : IPIMsg)
    (imm p1 p2 : Z) : M World bool :=
  let ok := ipi_deliver_ok P idx tgt msg in
  emit (ipi_deliver idx tgt msg imm p1 p2 ok);;
  mret ok.

(** Modelled from the spec: [checkComplete(idx) -> bool] of the IPI
    coordinator, a read of what the targets have completed so far. *)
Definition IPI_MessageCheckIfComplete (idx : Z) : M World bool :=
  gets (fun w => mem_Z idx (ipi_completed w)).

(** Modelled from the spec: [free(idx)] of the IPI coordinator. *)
Definition IPI_MessageFree (idx : Z) : M World unit :=
  modify (fun w => set_ipi_in_use (remove_Z idx (ipi_in_use w)) w);;
  emit (ipi_free idx).

(** ** Access to the instance data from a handler *)

Definition my {A} (f : HSS_Boot_LocalData -> A) : M Ctx A :=
  gets (fun c => f (pInstanceData (self c))).

Definition update (f : HSS_Boot_LocalData -> HSS_Boot_LocalData) : M Ctx unit :=
  modify (fun c => set_self (set_pInstanceData (f (pInstanceData (self c))) (self c)) c).

Definition goto (s : BootStatesEnum) : M Ctx unit :=
  modify (fun c => set_self (set_state s (self c)) c).

(** [pBootImage->...]: a null pointer stops the handler. *)
Definition image {S} (w : S -> World) : M S HSS_BootImage := fun s =>
  match pBootImage (w s) with
  | Some img => Done img s
  | None => Stopped (NullPointer "pBootImage") s
  end.

(** [pBootImage->hart[h-1]]. *)
Definition hart_of (img : HSS_BootImage) (h : HSSHartId) : HSS_BootHartDesc :=
  hart img (h - 1)%nat.

(** [a[i]] and [a[i] = v] on the fixed arrays of the instance data. *)
Definition aux_at (d : HSS_Boot_LocalData) (peer : HSSHartId) : Z :=
  nth (peer - 1)%nat (msgIndexAux d) 0.

Definition set_aux_at (peer : HSSHartId) (v : Z) (d : HSS_Boot_LocalData) :=
  set_msgIndexAux (<[(peer - 1)%nat := v]> (msgIndexAux d)) d.

(** ** Helper functions *)

Definition boot_do_download_chunk (c : HSS_BootChunkDesc)
    (subChunkOffset subChunkSize : Z) : M World unit :=
  assert (truthy (chunk_size c)) "pChunk->size";;
  pImage ← gets pBootImage;
  let execAddr := wrap64 (chunk_execAddr c + subChunkOffset) in
  let loadAddr := wrap64 (from_option image_base 0 pImage
                          + chunk_loadAddr c + subChunkOffset) in
  emit (memcpy_via_pdma execAddr loadAddr subChunkSize).

Definition boot_do_zero_init_chunk (z : HSS_BootZIChunkDesc) : M World unit :=
  emit (memset0 (zi_execAddr z) (zi_size z)).

Definition free_msg_index : M Ctx unit :=
  idx ← my msgIndex;
  when (negb (idx =? NO_MSG))
    (in_world (IPI_MessageFree idx);;
     update (set_msgIndex NO_MSG)).

Definition free_msg_index_aux (peer : HSSHartId) : M Ctx unit :=
  idx ← my (fun d => aux_at d peer);
  when (negb (idx =? NO_MSG))
    (in_world (IPI_MessageFree idx);;
     update (set_aux_at peer NO_MSG)).

Definition check_for_ipi_acks : M Ctx bool :=
  result ← for_each bootMachine true (fun entry result =>
    let peer := entry.2 in
    idx ← my (fun d => aux_at d peer);
    if negb (idx =? NO_MSG) then
      result ← in_world (IPI_MessageCheckIfComplete idx);
      when result (free_msg_index_aux peer);;
      mret result
    else mret result);
  idx ← my msgIndex;
  if negb (idx =? NO_MSG) then
    complete ← in_world (IPI_MessageCheckIfComplete idx);
    let result := result && complete in
    when result free_msg_index;;
    mret result
  else mret result.

(** Modelled from the spec: the performance counters, the U54 state table
    and the domain registry are collaborators; their calls are recorded. *)
Definition HSS_PerfCtr_Allocate (nm : string) : M Ctx unit :=
  in_world (emit (perfctr_allocate nm));;
  update (set_perfCtr (perfctr_index P nm)).

Definition has_flag (img : HSS_BootImage) (h : HSSHartId) (flag : Z) : bool :=
  truthy (Z.land (flags (hart_of img h)) flag).

(** ** Handlers for each state in the state machine *)

Definition boot_init_handler : M Ctx unit :=
  ddr ← in_world (HSS_Trigger_IsNotified EVENT_DDR_TRAINED);
  started ← (if ddr : bool then in_world (HSS_Trigger_IsNotified EVENT_STARTUP_COMPLETE)
             else mret false);
  when (ddr && started)
    (pImage ← gets (fun c => pBootImage (env c));
     match pImage with
     | Some img =>
         in_world (modify (set_BOOT_FAIL_CR 0));;
         now ← in_world HSS_GetTime;
         modify (fun c => set_self (set_startTime now (self c)) c);;
         target ← my target;
         when (has_flag img target (BOOT_FLAG_SKIP_OPENSBI P))
           (in_world (mHSS_DEBUG_PRINTF LOG_STATUS "BOOT_FLAG_SKIP_OPENSBI found"));;
         nm ← gets (fun c => pMachineName (self c));
         HSS_PerfCtr_Allocate nm;;
         goto BOOT_SETUP_PMP
     | None =>
         in_world (mHSS_DEBUG_PRINTF LOG_ERROR "No Boot Image registered");;
         goto BOOT_ERROR
     end).

Definition primary_boot_hart (img : HSS_BootImage) (target : HSSHartId) : bool :=
  truthy (numChunks (hart_of img target)) && truthy (entryPoint (hart_of img target)).

Definition register_harts : M Ctx unit :=
  target ← my target;
  update (set_msgIndex NO_MSG);;
  img ← image env;
  let primary := primary_boot_hart img target in
  for_each bootMachine tt (fun entry _ =>
    let peer := entry.2 in
    update (set_aux_at peer NO_MSG);;
    when primary
      (if has_flag img peer (BOOT_FLAG_SKIP_OPENSBI P) then
         in_world (emit (domains_deregister_hart peer))
       else if (peer =? target)%nat
               || (entryPoint (hart_of img peer) =? entryPoint (hart_of img target)) then
         update (fun d => set_hartMask (Z.lor (hartMask d) (BIT peer)) d);;
         in_world (emit (domains_register_hart peer target))
       else mret tt));;
  when primary
    (if has_flag img target (BOOT_FLAG_SKIP_OPENSBI P) then mret tt
     else
       in_world (mHSS_DEBUG_PRINTF LOG_NORMAL "Registering domain");;
       anc ← my ancilliaryData;
       pArg1 ← (if truthy anc then mret anc
                else if CONFIG_PROVIDE_DTB (config P) then
                  in_world (mHSS_DEBUG_PRINTF LOG_WARN "Using built-in DTB");;
                  mret (builtin_dtb P)
                else mret 0);
       mask ← my hartMask;
       in_world (emit (domains_register_boot_hart
         (name (hart_of img target)) mask target
         (privMode (hart_of img target)) (entryPoint (hart_of img target)) pArg1
         (Z.land (flags (hart_of img target)) (BOOT_FLAG_ALLOW_COLD_REBOOT P))
         (Z.land (flags (hart_of img target)) (BOOT_FLAG_ALLOW_WARM_REBOOT P))))).

Definition boot_setup_pmp_onEntry : M Ctx unit := register_harts.

(** [HSS_Boot_PMPSetupRequest(target, indexOut)]: the second component is
    what the call stored through [indexOut], if anything. *)
Definition HSS_Boot_PMPSetupRequest (target : HSSHartId) : M World (bool * option Z) :=
  assert (negb (target =? HSS_HART_ALL)%nat) "target != HSS_HART_ALL";;
  slot ← IPI_MessageAlloc;
  assert (bool_decide (is_Some slot)) "result";;
  match slot with
  | Some idx =>
      ok ← IPI_MessageDeliver idx target IPI_MSG_PMP_SETUP 0 0 0;
      when (negb ok)
        (mHSS_DEBUG_PRINTF LOG_NORMAL "failed to send message, so freeing";;
         IPI_MessageFree idx);;
      mret (ok, Some idx)
  | None => mret (false, None)
  end.

Definition HSS_Boot_SBISetupRequest (target : HSSHartId) : M World (bool * option Z) :=
  assert (negb (target =? HSS_HART_ALL)%nat) "target != HSS_HART_ALL";;
  slot ← IPI_MessageAlloc;
  assert (bool_decide (is_Some slot)) "result";;
  match slot with
  | Some idx =>
      ok ← IPI_MessageDeliver idx target IPI_MSG_OPENSBI_INIT 0 0 0;
      when (negb ok)
        (mHSS_DEBUG_PRINTF LOG_NORMAL "failed to send message, so freeing";;
         IPI_MessageFree idx);;
      mret (ok, Some idx)
  | None => mret (false, None)
  end.

Definition boot_setup_pmp_handler : M Ctx unit :=
  target ← my target;
  idx ← my msgIndex;
  result ← (if idx =? NO_MSG then
              r ← in_world (HSS_Boot_PMPSetupRequest target);
              match r.2 with
              | Some i => update (set_msgIndex i)
              | None => mret tt
              end;;
              mret r.1
            else mret true);
  when result (goto BOOT_SETUP_PMP_COMPLETE).

Definition boot_setup_pmp_complete_onEntry : M Ctx unit := mret tt.

Definition free_all_msg_indexes : M Ctx unit :=
  for_each bootMachine tt (fun entry _ => free_msg_index_aux entry.2);;
  free_msg_index.

Definition boot_setup_pmp_complete_handler : M Ctx unit :=
  target ← my target;
  start ← gets (fun c => startTime (self c));
  elapsed ← in_world (HSS_Timer_IsElapsed start BOOT_SETUP_PMP_COMPLETE_TIMEOUT);
  if elapsed : bool then
    in_world (mHSS_DEBUG_PRINTF LOG_ERROR "Timeout");;
    free_all_msg_indexes;;
    goto BOOT_ERROR
  else
    acked ← check_for_ipi_acks;
    when acked
      (img ← image env;
       if has_flag img target (BOOT_FLAG_SKIP_AUTOBOOT P) then goto BOOT_COMPLETE
       else goto BOOT_ZERO_INIT_CHUNKS).

(** [assert(pBootImage != NULL)] followed by the use of the image. *)
Definition assert_image : M Ctx HSS_BootImage := fun c =>
  match pBootImage (env c) with
  | Some img => Done img c
  | None => Stopped (AssertFailed "pBootImage != NULL") c
  end.

Definition debug_chunk_downloads (what : string) : M Ctx unit :=
  when (CONFIG_DEBUG_CHUNK_DOWNLOADS (config P))
    (in_world (mHSS_DEBUG_PRINTF LOG_NORMAL what)).

Definition boot_zero_init_chunks_onEntry : M Ctx unit :=
  _ ← assert_image;
  update (set_pZiChunk 0%nat).

Definition boot_zero_init_chunks_handler : M Ctx unit :=
  target ← my target;
  img ← assert_image;
  p ← my pZiChunk;
  let pZiChunk := ziChunkTable img p in
  if truthy (zi_size pZiChunk) then
    if Z.of_nat target =? zi_owner pZiChunk then
      (* both operands of the && below only read *)
      trained ← in_world (HSS_Trigger_IsNotified EVENT_DDR_TRAINED);
      if HSS_DDR_IsAddrInDDR P (zi_execAddr pZiChunk) && negb trained then
        mret tt (* need to wait until DDR is initialized *)
      else
        debug_chunk_downloads "ziChunk";;
        in_world (boot_do_zero_init_chunk pZiChunk);;
        update (set_pZiChunk (S p))
    else
      update (set_pZiChunk (S p))
  else
    goto BOOT_DOWNLOAD_CHUNKS.

Definition boot_download_chunks_onEntry : M Ctx unit :=
  target ← my target;
  img ← assert_image;
  when (truthy (numChunks (hart_of img target)))
    (in_world (mHSS_DEBUG_PRINTF LOG_NORMAL "Processing boot image");;
     update (set_pChunk 0%nat);;
     debug_chunk_downloads "firstChunk";;
     debug_chunk_downloads "lastChunk";;
     debug_chunk_downloads "numChunks";;
     update (set_chunkCount 0);;
     update (set_subChunkOffset 0);;
     update (fun d => set_pChunk (pChunk d + firstChunk (hart_of img target))%nat d)).

(** The test that lets a chunk be copied: it is for this hart and the
    hart may write where it goes. *)
Definition chunk_is_mine (target : HSSHartId) (c : HSS_BootChunkDesc) : bool :=
  Z.land (chunk_owner c) (not32 (BOOT_FLAG_ANCILLIARY_DATA P)) =? Z.of_nat target.

Definition boot_download_chunks_handler : M Ctx unit :=
  target ← my target;
  img ← assert_image;
  if truthy (numChunks (hart_of img target)) then
    p ← my pChunk;
    let pChunk := chunkTable img p in
    count ← my chunkCount;
    if (count <=? lastChunk (hart_of img target)) && truthy (chunk_size pChunk) then
      if chunk_is_mine target pChunk
         && HSS_PMP_CheckWrite P target (chunk_execAddr pChunk) (chunk_size pChunk) then
        offset ← my subChunkOffset;
        when (negb (truthy offset)) (debug_chunk_downloads "chunk");;
        in_world (boot_do_download_chunk pChunk offset BOOT_SUB_CHUNK_SIZE);;
        anc ← my ancilliaryData;
        when (truthy (Z.land (chunk_owner pChunk) (BOOT_FLAG_ANCILLIARY_DATA P))
              && negb (truthy anc))
          (in_world (mHSS_DEBUG_PRINTF LOG_NORMAL "ancilliary data found");;
           update (set_ancilliaryData (chunk_execAddr pChunk)));;
        update (set_subChunkOffset (wrap64 (offset + BOOT_SUB_CHUNK_SIZE)));;
        offset ← my subChunkOffset;
        when (chunk_size pChunk <? offset)
          (debug_chunk_downloads "sub-chunk finished";;
           update (set_subChunkOffset 0);;
           update (set_chunkCount (wrap64 (count + 1)));;
           update (set_pChunk (S p)))
      else
        (if chunk_owner pChunk =? Z.of_nat target then
           in_world (mHSS_DEBUG_PRINTF LOG_ERROR "Skipping chunk due to invalid permissions")
         else
           in_world (mHSS_DEBUG_PRINTF LOG_WARN "Skipping chunk due to ownership"));;
        update (set_pChunk (S p))
    else
      goto BOOT_OPENSBI_INIT
  else
    goto BOOT_COMPLETE.

Definition boot_download_chunks_onExit : M Ctx unit := register_harts.

Definition boot_opensbi_init_onEntry : M Ctx unit :=
  target ← my target;
  img ← assert_image;
  when (truthy (entryPoint (hart_of img target))) (update (set_iterator 0)).

Definition common_boot_message_delivery (target : HSSHartId) : M Ctx unit :=
  slot ← in_world IPI_MessageAlloc;
  match slot with
  | Some idx => update (set_aux_at target idx)
  | None => mret tt
  end;;
  assert (bool_decide (is_Some slot)) "result";;
  img ← image env;
  idx ← my (fun d => aux_at d target);
  anc ← my ancilliaryData;
  if has_flag img target (BOOT_FLAG_SKIP_OPENSBI P) then
    result ← in_world (IPI_MessageDeliver idx target IPI_MSG_GOTO
                (privMode (hart_of img target)) (entryPoint (hart_of img target)) anc);
    when (negb result)
      (in_world (mHSS_DEBUG_PRINTF LOG_ERROR "sbi_init failed");;
       goto BOOT_ERROR)
  else
    result ← in_world (IPI_MessageDeliver idx target IPI_MSG_OPENSBI_INIT
                (privMode (hart_of img target)) (entryPoint (hart_of img target)) anc);
    when (negb result)
      (in_world (mHSS_DEBUG_PRINTF LOG_ERROR "sbi_init failed");;
       goto BOOT_ERROR).

Definition ARRAY_SIZE_bootMachine : Z := Z.of_nat (length bootMachine).

Definition boot_opensbi_init_handler : M Ctx unit :=
  target ← my target;
  img ← assert_image;
  when (primary_boot_hart img target)
    (i ← my iterator;
     if i <? ARRAY_SIZE_bootMachine then
       let peer := (nth (Z.to_nat i) bootMachine (0%nat, HSS_HART_E51)).2 in
       (if (peer =? target)%nat then mret tt (* skip myself for now *)
        else if entryPoint (hart_of img peer) =? entryPoint (hart_of img target) then
          common_boot_message_delivery peer
        else mret tt);;
       update (fun d => set_iterator (wrap32 (iterator d + 1)) d)
     else
       goto BOOT_WAIT).

Definition boot_opensbi_init_onExit : M Ctx unit :=
  target ← my target;
  img ← assert_image;
  if truthy (entryPoint (hart_of img target)) then
    common_boot_message_delivery target
  else
    in_world (mHSS_DEBUG_PRINTF LOG_NORMAL "skipping goto/sbi_init").

Definition boot_wait_onEntry : M Ctx unit := mret tt.

(** Modelled from the spec: [mHSS_ReadModWriteRegU32(SYSREGSCB, MSS_STATUS,
    mask, value)] of [mpfs_reg_map.h], a read-modify-write of the register
    under the mask. *)
Definition mHSS_ReadModWriteRegU32_MSS_STATUS (mask value : Z) : M World unit :=
  modify (fun w => set_MSS_STATUS
    (Z.lor (Z.land (MSS_STATUS w) (not32 mask)) (Z.land value mask)) w).

Definition boot_wait_handler : M Ctx unit :=
  target ← my target;
  now ← in_world HSS_GetTime;
  modify (fun c => set_self (set_startTime now (self c)) c);;
  img ← image env;
  if negb (truthy (entryPoint (hart_of img target))) then
    (* nothing for me to do, not expecting GOTO ack... *)
    in_world (emit (u54_set_state target HSS_State_Idle));;
    goto BOOT_COMPLETE
  else
    start ← gets (fun c => startTime (self c));
    elapsed ← in_world (HSS_Timer_IsElapsed start BOOT_WAIT_TIMEOUT);
    if elapsed : bool then
      in_world (mHSS_DEBUG_PRINTF LOG_ERROR "IPI ACK Timeout");;
      free_all_msg_indexes;;
      goto BOOT_ERROR
    else
      acked ← check_for_ipi_acks;
      when acked
        (in_world (mHSS_ReadModWriteRegU32_MSS_STATUS 65535 (BIT (target - 1)));;
         goto BOOT_COMPLETE).

Definition boot_error_handler : M Ctx unit :=
  in_world (mHSS_DEBUG_PRINTF LOG_ERROR "WARNING: Boot Error - transitioning to IDLE");;
  in_world (modify (set_BOOT_FAIL_CR 1));;
  goto BOOT_COMPLETE.

Definition boot_complete_onEntry : M Ctx unit :=
  hartId ← my target;
  in_world (modify (fun w => set_bootComplete (<[hartId := 1]> (bootComplete w)) w)).

Definition boot_complete_handler : M Ctx unit :=
  done ← gets (fun c => bootComplete (env c));
  let all_complete :=
    truthy (nth 1 done 0) && truthy (nth 2 done 0)
    && truthy (nth 3 done 0) && truthy (nth 4 done 0) in
  when all_complete
    (in_world (HSS_Trigger_Notify EVENT_BOOT_COMPLETE);;
     goto BOOT_IDLE).

Definition boot_idle_onEntry : M Ctx unit :=
  ctr ← my perfCtr;
  in_world (emit (perfctr_lap ctr)).

Definition boot_idle_handler : M Ctx unit :=
  target ← my target;
  in_world (emit (ipi_consume_intent target IPI_MSG_BOOT_REQUEST)).

(** ** The table of state descriptors ([boot_state_descs]) *)

Record StateDesc := {
  state_name : string;
  state_onEntry : option (M Ctx unit);
  state_onExit : option (M Ctx unit);
  state_handler : M Ctx unit
}.

Definition boot_state_descs (s : BootStatesEnum) : StateDesc :=
  match s with
  | BOOT_INITIALIZATION =>
      {| state_name := "Init"; state_onEntry := None; state_onExit := None;
         state_handler := boot_init_handler |}
  | BOOT_SETUP_PMP =>
      {| state_name := "SetupPMP"; state_onEntry := Some boot_setup_pmp_onEntry;
         state_onExit := None; state_handler := boot_setup_pmp_handler |}
  | BOOT_SETUP_PMP_COMPLETE =>
      {| state_name := "SetupPMPComplete";
         state_onEntry := Some boot_setup_pmp_complete_onEntry;
         state_onExit := None; state_handler := boot_setup_pmp_complete_handler |}
  | BOOT_ZERO_INIT_CHUNKS =>
      {| state_name := "ZeroInit"; state_onEntry := Some boot_zero_init_chunks_onEntry;
         state_onExit := None; state_handler := boot_zero_init_chunks_handler |}
  | BOOT_DOWNLOAD_CHUNKS =>
      {| state_name := "Download"; state_onEntry := Some boot_download_chunks_onEntry;
         state_onExit := Some boot_download_chunks_onExit;
         state_handler := boot_download_chunks_handler |}
  | BOOT_OPENSBI_INIT =>
      {| state_name := "OpenSBIInit"; state_onEntry := Some boot_opensbi_init_onEntry;
         state_onExit := Some boot_opensbi_init_onExit;
         state_handler := boot_opensbi_init_handler |}
  | BOOT_WAIT =>
      {| state_name := "Wait"; state_onEntry := Some boot_wait_onEntry;
         state_onExit := None; state_handler := boot_wait_handler |}
  | BOOT_COMPLETE =>
      {| state_name := "Complete"; state_onEntry := Some boot_complete_onEntry;
         state_onExit := None; state_handler := boot_complete_handler |}
  | BOOT_IDLE =>
      {| state_name := "Idle"; state_onEntry := Some boot_idle_onEntry;
         state_onExit := None; state_handler := boot_idle_handler |}
  | BOOT_ERROR =>
      {| state_name := "Error"; state_onEntry := None; state_onExit := None;
         state_handler := boot_error_handler |}
  end.

Definition run_hook (h : option (M Ctx unit)) : M Ctx unit :=
  match h with Some f => f | None => mret tt end.

(** Modelled from the spec: the dispatcher of [hss_state_machine.c], which is
    not part of this file.  One call runs the descriptor of the current
    state: its on-entry hook when the state was entered since the last call,
    its handler, and its on-exit hook when the handler left the state. *)
Definition RunStateMachine : M Ctx unit :=
  m ← gets self;
  let currentState := state m in
  let desc := boot_state_descs currentState in
  let entered := match prevState m with
                 | Some prev => negb (BootStatesEnum_eqb prev currentState)
                 | None => true
                 end in
  when entered (run_hook (state_onEntry desc));;
  state_handler desc;;
  nextState ← gets (fun c => state (self c));
  when (negb (BootStatesEnum_eqb nextState currentState))
    (run_hook (state_onExit desc));;
  modify (fun c => set_self (set_executionCount (wrap64 (executionCount (self c) + 1))
                              (set_prevState (Some currentState) (self c))) c).

(** [n] calls of the dispatcher on one machine; a fault ends the run. *)
Fixpoint run_ticks (n : nat) : M Ctx unit :=
  match n with
  | O => mret tt
  | S n' => RunStateMachine;; run_ticks n'
  end.

(** ** Public API *)

Inductive IPIStatusCode := IPI_FAIL | IPI_SUCCESS.

Definition machine_at (i : nat) : M System StateMachine := fun s =>
  match boot_service s !! i with
  | Some m => Done m s
  | None => Stopped (NullPointer "bootMachine[i].pMachine") s
  end.

Definition set_machine_state (i : nat) (st : BootStatesEnum) : M System unit :=
  modify (fun s => set_boot_service (alter (set_state st) i (boot_service s)) s).

Definition boot_using_hart_bitmask_ (restartHartBitmask : Z) : M System bool :=
  result ← for_each bootMachine false (fun entry result =>
    if truthy (Z.land restartHartBitmask (BIT entry.2)) then
      pMachine ← machine_at entry.1;
      match state pMachine with
      | BOOT_OPENSBI_INIT =>
          set_machine_state entry.1 BOOT_OPENSBI_INIT;;
          mret true
      | BOOT_SETUP_PMP_COMPLETE | BOOT_IDLE | BOOT_INITIALIZATION =>
          set_machine_state entry.1 BOOT_INITIALIZATION;;
          mret true
      | _ =>
          in_sys (mHSS_DEBUG_PRINTF LOG_ERROR "invalid hart state");;
          (* try to recover anyway *)
          set_machine_state entry.1 BOOT_INITIALIZATION;;
          mret true
      end
    else mret result);
  in_sys (HSS_Trigger_Notify EVENT_POST_BOOT);;
  mret result.

Definition set_headerCrc (v : Z) (i : HSS_BootImage) : HSS_BootImage :=
  {| image_base := image_base i; magic := magic i; version := version i;
     headerCrc := v; signature := signature i; set_name := set_name i;
     chunkTableOffset := chunkTableOffset i; ziChunkTableOffset := ziChunkTableOffset i;
     hart := hart i; chunkTable := chunkTable i; ziChunkTable := ziChunkTable i |}.

Definition set_signature (v : list Z) (i : HSS_BootImage) : HSS_BootImage :=
  {| image_base := image_base i; magic := magic i; version := version i;
     headerCrc := headerCrc i; signature := v; set_name := set_name i;
     chunkTableOffset := chunkTableOffset i; ziChunkTableOffset := ziChunkTableOffset i;
     hart := hart i; chunkTable := chunkTable i; ziChunkTable := ziChunkTable i |}.

(** [memset(&x, 0, sizeof(x))] on a byte array. *)
Definition zeroed (bytes : list Z) : list Z := repeat 0 (length bytes).

(** The local [shadowHdr] of [validateCrc_] after its two writes. *)
Definition shadowHdr (hdr : HSS_BootImage) : HSS_BootImage :=
  set_signature (zeroed (signature hdr)) (set_headerCrc 0 hdr).

Definition crcLen (hdr : HSS_BootImage) : nat :=
  if version hdr =? 0 then sizeof_HSS_BootImage_v0 P else sizeof_HSS_BootImage P.

Definition validateCrc_ (pImageHdr : HSS_BootImage) : M World bool :=
  let shadow := shadowHdr pImageHdr in
  let len := crcLen pImageHdr in
  let crc := CRC32_calculate P (take len (object_bytes P shadow)) in
  if crc =? headerCrc pImageHdr then mret true
  else
    mHSS_DEBUG_PRINTF LOG_ERROR "Checked HSS_BootImage header CRC: calculated vs expected";;
    mret false.

(** *** The custom boot flow *)

Fixpoint custom_zero_init (fuel : nat) (img : HSS_BootImage) (target : HSSHartId)
    (p : nat) : M World unit :=
  match fuel with
  | O => stop OutOfFuel
  | S fuel' =>
      let pZiChunk := ziChunkTable img p in
      if truthy (zi_size pZiChunk) then
        when (Z.of_nat target =? zi_owner pZiChunk)
          (when (CONFIG_DEBUG_CHUNK_DOWNLOADS (config P))
             (mHSS_DEBUG_PRINTF LOG_NORMAL "ziChunk");;
           boot_do_zero_init_chunk pZiChunk);;
        custom_zero_init fuel' img target (S p)
      else mret tt
  end.

Fixpoint custom_download (fuel : nat) (img : HSS_BootImage) (target : HSSHartId)
    (p : nat) (subChunkOffset : Z) : M World unit :=
  match fuel with
  | O => stop OutOfFuel
  | S fuel' =>
      let pChunk := chunkTable img p in
      if truthy (chunk_size pChunk) then
        if (chunk_owner pChunk =? Z.of_nat target)
           && HSS_PMP_CheckWrite P target (chunk_execAddr pChunk) (chunk_size pChunk) then
          when (CONFIG_DEBUG_CHUNK_DOWNLOADS (config P) && negb (truthy subChunkOffset))
            (mHSS_DEBUG_PRINTF LOG_NORMAL "chunk");;
          boot_do_download_chunk pChunk subChunkOffset BOOT_SUB_CHUNK_SIZE;;
          let offset := wrap64 (subChunkOffset + BOOT_SUB_CHUNK_SIZE) in
          if chunk_size pChunk <? offset then
            custom_download fuel' img target (S p) 0
          else
            custom_download fuel' img target p offset
        else
          custom_download fuel' img target (S p) subChunkOffset
      else mret tt
  end.

(** The [for] loop that picks the last hart with chunks: target, numChunks
    and firstChunk after it. *)
Definition custom_target (img : HSS_BootImage) : HSSHartId * Z * nat :=
  fold_left (fun acc i =>
               if truthy (numChunks (hart img i)) then
                 (S i, numChunks (hart img i), firstChunk (hart img i))
               else acc)
            (seq 0 (MAX_NUM_HARTS - 1)) (0%nat, 0, 0%nat).

Definition HSS_Boot_Custom (fuel : nat) : M World bool :=
  pImage ← gets pBootImage;
  match pImage with
  | None => mret false
  | Some img =>
      let '(target, numChunks, firstChunk) := custom_target img in
      if negb (truthy numChunks) || (target =? 0)%nat then
        mHSS_DEBUG_PRINTF LOG_ERROR "Failed to find target HART";;
        mret false
      else
        mHSS_DEBUG_PRINTF LOG_NORMAL "Zeroing chunks";;
        custom_zero_init fuel img target 0%nat;;
        mHSS_DEBUG_PRINTF LOG_NORMAL "Downloading chunks";;
        custom_download fuel img target firstChunk 0;;
        when (CONFIG_SERVICE_BOOT_CUSTOM_FLOW (config P))
          (let custom_entryPoint := entryPoint (hart_of img target) in
           mHSS_DEBUG_PRINTF LOG_NORMAL "All HARTs jumping to entry address in M-mode";;
           for_each (seq 1 (MAX_NUM_HARTS - 1)) tt (fun i _ =>
             emit (ipi_send i IPI_MSG_OPENSBI_INIT 0 (PRV_M P) custom_entryPoint 0));;
           emit (jump_to custom_entryPoint));;
        mret true
  end.

Definition HSS_Boot_ValidateImage (fuel : nat) (pImage : option HSS_BootImage)
    : M World bool :=
  if CONFIG_SERVICE_BOOT (config P) then
    match pImage with
    | None =>
        mHSS_DEBUG_PRINTF LOG_ERROR "Boot Image NULL, ignoring";;
        mret false
    | Some img =>
        if negb (magic img =? mHSS_BOOT_MAGIC P) then
          mHSS_DEBUG_PRINTF LOG_ERROR "Boot Image magic invalid, ignoring";;
          mret false
        else if CONFIG_CRYPTO_SIGNING (config P)
                && negb (HSS_Boot_Secure_CheckCodeSigning P img) then
          mHSS_DEBUG_PRINTF LOG_ERROR "Boot Image failed code signing";;
          mret false
        else
          crcOk ← validateCrc_ img;
          if crcOk : bool then
            when (CONFIG_SERVICE_GPIO_UI (config P)) (emit gpio_ui_report_image_good_crc);;
            mHSS_DEBUG_PRINTF LOG_NORMAL "Boot image set name";;
            if CONFIG_SERVICE_BOOT_CUSTOM_FLOW (config P) then HSS_Boot_Custom fuel
            else mret true
          else
            mHSS_DEBUG_PRINTF LOG_ERROR "Boot image failed CRC";;
            mret false
    end
  else mret false.

Definition HSS_Boot_VerifyMagic (pImage : HSS_BootImage) : M World bool :=
  if (magic pImage =? mHSS_BOOT_MAGIC P) || (magic pImage =? mHSS_COMPRESSED_MAGIC P)
  then mret true
  else
    mHSS_DEBUG_PRINTF LOG_WARN "magic is not the expected one";;
    mret false.

Definition HSS_Register_Boot_Image (pImage : option HSS_BootImage) : M World unit :=
  modify (set_pBootImage pImage).

(** The boot-set of [source] as a bitmask: the harts of [bootMachine], other
    than [source], with its entry point. *)
Definition boot_set_peers (img : HSS_BootImage) (source : HSSHartId) : Z :=
  fold_left (fun localRestartHartBitmask entry =>
               let peer := entry.2 in
               if (peer =? source)%nat then localRestartHartBitmask (* skip myself *)
               else if entryPoint (hart_of img peer) =? entryPoint (hart_of img source)
               then Z.lor localRestartHartBitmask (BIT peer)
               else localRestartHartBitmask)
            bootMachine 0.

Definition HSS_Boot_RestartCores_Using_Bitmask (fuel : nat) (restartHartBitmask : Z)
    : M System IPIStatusCode :=
  pImage ← gets (fun s => pBootImage (sys s));
  match pImage with
  | None =>
      in_sys (mHSS_DEBUG_PRINTF LOG_ERROR "pBootImage is NULL");;
      mret IPI_FAIL
  | Some img =>
      valid ← in_sys (HSS_Boot_ValidateImage fuel pImage);
      if negb valid then
        in_sys (mHSS_DEBUG_PRINTF LOG_ERROR "validation failed for Hart bitmask");;
        mret IPI_FAIL
      else
        r ← for_each (seq HSS_HART_U54_1 (HSS_HART_NUM_PEERS - HSS_HART_U54_1))
              (IPI_FAIL, restartHartBitmask)
              (fun source acc =>
                 let result := acc.1 in
                 let restartHartBitmask := acc.2 in
                 if negb (truthy (Z.land restartHartBitmask (BIT source))) then
                   mret acc (* continue *)
                 else
                   let localRestartHartBitmask :=
                     Z.lor (boot_set_peers img source) (BIT source) in
                   booted ← (if truthy (numChunks (hart_of img source)) then
                               boot_using_hart_bitmask_ localRestartHartBitmask
                             else mret false);
                   mret (if booted : bool then IPI_SUCCESS else result,
                         Z.land restartHartBitmask (not32 localRestartHartBitmask)));
        mret r.1
  end.

(** The bitmask [{ .s = { .u54_1 = 1, .u54_2 = 1, .u54_3 = 1, .u54_4 = 1 } }]:
    the bit-field of hart [h] is bit [h] of [.uint], as the tests
    [uint & (1u << hartId)] of the source take it to be. *)
Definition ALL_U54 : Z :=
  Z.lor (Z.lor (BIT HSS_HART_U54_1) (BIT HSS_HART_U54_2))
        (Z.lor (BIT HSS_HART_U54_3) (BIT HSS_HART_U54_4)).

Definition HSS_Boot_RestartCore (fuel : nat) (source : HSSHartId) : M System IPIStatusCode :=
  pImage ← gets (fun s => pBootImage (sys s));
  assert (bool_decide (is_Some pImage)) "pBootImage";;
  if negb (source =? HSS_HART_ALL)%nat then
    HSS_Boot_RestartCores_Using_Bitmask fuel (BIT source)
  else
    valid ← in_sys (HSS_Boot_ValidateImage fuel pImage);
    if negb valid then
      in_sys (mHSS_DEBUG_PRINTF LOG_ERROR "validation failed");;
      mret IPI_FAIL
    else
      booted ← boot_using_hart_bitmask_ ALL_U54;
      mret (if booted : bool then IPI_SUCCESS else IPI_FAIL).

Definition HSS_SkipBoot_IsSet (target : HSSHartId) : M World bool :=
  pImage ← gets pBootImage;
  match pImage with
  | None => stop (AssertFailed "pBootImage != NULL")
  | Some img => mret (has_flag img target (BOOT_FLAG_SKIP_AUTOBOOT P))
  end.

(** [rproc_target] is [rproc_data->target], read from the extended buffer. *)
Definition HSS_Boot_IPIHandler (fuel : nat) (source : HSSHartId) (immediate_arg : Z)
    (rproc_target : HSSHartId) : M System IPIStatusCode :=
  if CONFIG_SERVICE_OPENSBI_RPROC (config P) && (immediate_arg =? RPROC_BOOT P) then
    _ ← machine_at (rproc_target - 1);
    set_machine_state (rproc_target - 1) BOOT_OPENSBI_INIT;;
    HSS_Boot_RestartCore fuel rproc_target
  else
    HSS_Boot_RestartCore fuel source.

(** [HSS_Boot_PMPSetupHandler], run on the U54 whose id [current_hartid()]
    returns. *)
Definition HSS_Boot_PMPSetupHandler (myHartId : HSSHartId) : M World IPIStatusCode :=
  emit (u54_set_state myHartId HSS_State_Booting);;
  latch ← gets (fun w => nth myHartId (pmpSetupFlag w) false);
  if negb latch then
    modify (fun w => set_pmpSetupFlag (<[myHartId := true]> (pmpSetupFlag w)) w);;
    emit (init_pmp myHartId);;
    emit (mss_set_apb_bus_cr (LIBERO_SETTING_APBBUS_CR P));;
    mret IPI_SUCCESS
  else
    mret IPI_SUCCESS.

(** ** Initial state ([localData], [boot_service1] .. [boot_service4]) *)

Definition localData (i : nat) : HSS_Boot_LocalData :=
  {| target := S i; pChunk := 0%nat; pZiChunk := 0%nat;
     chunkCount := 0; ziChunkCount := 0; subChunkOffset := 0;
     msgIndex := NO_MSG; hartMask := 0; perfCtr := PERF_CTR_UNINITIALIZED P;
     iterator := 0; ancilliaryData := 0; msgIndexAux := [0; 0; 0; 0] |}.

Definition boot_service_init (i : nat) (nm : string) : StateMachine :=
  {| state := BOOT_IDLE; prevState := None; pMachineName := nm;
     startTime := 0; executionCount := 0; pInstanceData := localData i |}.

Definition boot_service1 := boot_service_init 0 "boot_service(u54_1)".
Definition boot_service2 := boot_service_init 1 "boot_service(u54_2)".
Definition boot_service3 := boot_service_init 2 "boot_service(u54_3)".
Definition boot_service4 := boot_service_init 3 "boot_service(u54_4)".

Definition World_init : World :=
  {| pBootImage := None;
     pmpSetupFlag := [false; false; false; false; false];
     bootComplete := [0; 0; 0; 0; 0];
     BOOT_FAIL_CR := 0; MSS_STATUS := 0; notified := [];
     ipi_in_use := []; ipi_completed := []; clock_reads := 0%nat; trace := [] |}.

Definition System_init : System :=
  {| boot_service := [boot_service1; boot_service2; boot_service3; boot_service4];
     sys := World_init |}.

End BootService.

(** ** A concrete platform

    A CRC-32 (reflected, polynomial EDB88320), a little-endian header layout
    and one write window per U54, used to run the service on examples. *)

Definition crc32_bit (crc : Z) : Z :=
  if Z.testbit crc 0 then Z.lxor (Z.shiftr crc 1) 3988292384 else Z.shiftr crc 1.

Definition crc32_byte (crc byte : Z) : Z :=
  Nat.iter 8 crc32_bit (Z.lxor crc (Z.land byte 255)).

Definition crc32 (bytes : list Z) : Z :=
  Z.lxor (fold_left crc32_byte bytes 4294967295) 4294967295.

Definition le32 (x : Z) : list Z :=
  [Z.land x 255; Z.land (Z.shiftr x 8) 255;
   Z.land (Z.shiftr x 16) 255; Z.land (Z.shiftr x 24) 255].

Definition demo_object_bytes (i : HSS_BootImage) : list Z :=
  le32 (magic i) ++ le32 (version i) ++ le32 (headerCrc i)
  ++ le32 (chunkTableOffset i) ++ le32 (ziChunkTableOffset i)
  ++ flat_map (fun k => le32 (entryPoint (hart i k)) ++ le32 (numChunks (hart i k))
                        ++ le32 (flags (hart i k))) (seq 0 4)
  ++ signature i.

(** Hart [h] may write the 256 MiB window that starts at [h * 0x1000_0000]
    above [0x8000_0000]. *)
Definition demo_CheckWrite (h : HSSHartId) (addr size : Z) : bool :=
  let lo := 2147483648 + (Z.of_nat h - 1) * 268435456 in
  (lo <=? addr) && (addr + size <=? lo + 268435456).

Definition demo_config : Config :=
  {| CONFIG_SERVICE_BOOT := true; CONFIG_CRYPTO_SIGNING := false;
     CONFIG_PROVIDE_DTB := false; CONFIG_SERVICE_OPENSBI_RPROC := false;
     CONFIG_SERVICE_BOOT_CUSTOM_FLOW := false; CONFIG_DEBUG_CHUNK_DOWNLOADS := false;
     CONFIG_SERVICE_GPIO_UI := false |}.


(** [deliver] tells which deliveries the transport accepts; [ticks] is the
    clock. *)
Definition demo_platform_with (cfg : Config) (ticks : nat -> Z)
    (deliver : Z -> HSSHartId -> IPIMsg -> bool) : Platform :=
  {| config := cfg;
     ONE_SEC := 1000000;
     IPI_MAX_NUM_OUTSTANDING_COMPLETES := 8;
     mHSS_BOOT_MAGIC := 2953300190;
     mHSS_COMPRESSED_MAGIC := 3230368597;
     BOOT_FLAG_ANCILLIARY_DATA := 128;
     BOOT_FLAG_SKIP_OPENSBI := 64;
     BOOT_FLAG_SKIP_AUTOBOOT := 8;
     BOOT_FLAG_ALLOW_COLD_REBOOT := 32;
     BOOT_FLAG_ALLOW_WARM_REBOOT := 16;
     LIBERO_SETTING_APBBUS_CR := 0;
     PRV_M := 3;
     RPROC_BOOT := 1;
     PERF_CTR_UNINITIALIZED := -1;
     builtin_dtb := 0;
     sizeof_HSS_BootImage := 164;
     sizeof_HSS_BootImage_v0 := 68;
     object_bytes := demo_object_bytes;
     CRC32_calculate := crc32;
     HSS_Boot_Secure_CheckCodeSigning := fun _ => true;
     HSS_PMP_CheckWrite := demo_CheckWrite;
     HSS_DDR_IsAddrInDDR := fun addr => 2147483648 <=? addr;
     perfctr_index := fun _ => 0;
     clock := ticks;
     ipi_deliver_ok := deliver |}.

Definition demo_platform : Platform :=
  demo_platform_with demo_config (fun n => Z.of_nat n) (fun _ _ _ => true).

(** ** Example images and states *)

Definition no_hart : HSS_BootHartDesc :=
  {| name := ""; entryPoint := 0; privMode := 0; numChunks := 0;
     firstChunk := 0%nat; lastChunk := 0; flags := 0 |}.

(** The sentinels that end the two tables. *)
Definition end_chunk : HSS_BootChunkDesc :=
  {| chunk_owner := 0; chunk_loadAddr := 0; chunk_execAddr := 0; chunk_size := 0 |}.

Definition end_zi : HSS_BootZIChunkDesc :=
  {| zi_owner := 0; zi_execAddr := 0; zi_size := 0 |}.

(** An image at [0xA000_0000] with the given hart descriptors and tables,
    each table followed by sentinels; [seal] stores the header CRC. *)
Definition mk_image (harts : list HSS_BootHartDesc) (chunks : list HSS_BootChunkDesc)
    (zis : list HSS_BootZIChunkDesc) : HSS_BootImage :=
  {| image_base := 2684354560; magic := 2953300190; version := 1; headerCrc := 0;
     signature := repeat 0 96; set_name := "demo";
     chunkTableOffset := 1024; ziChunkTableOffset := 2048;
     hart := fun i => nth i harts no_hart;
     chunkTable := fun i => nth i chunks end_chunk;
     ziChunkTable := fun i => nth i zis end_zi |}.

Definition seal (i : HSS_BootImage) : HSS_BootImage :=
  set_headerCrc (crc32 (take 164 (demo_object_bytes (shadowHdr i)))) i.

Definition u54_payload (nm : string) (entry chunks : Z) : HSS_BootHartDesc :=
  {| name := nm; entryPoint := entry; privMode := 1; numChunks := chunks;
     firstChunk := 0%nat; lastChunk := 0; flags := 0 |}.

(** One hart, one chunk of [size] bytes into the hart's own window. *)
Definition single_chunk_image (size : Z) : HSS_BootImage :=
  seal (mk_image
    [u54_payload "u54_1" 2147483648 1]
    [{| chunk_owner := 1; chunk_loadAddr := 256;
        chunk_execAddr := 2147483648; chunk_size := size |}]
    []).

(** As above, with a zero-init chunk for hart 1 at [0x0800_0000], an address
    outside every window of [demo_CheckWrite]. *)
Definition zi_outside_image : HSS_BootImage :=
  seal (mk_image
    [u54_payload "u54_1" 2147483648 1]
    [{| chunk_owner := 1; chunk_loadAddr := 256;
        chunk_execAddr := 2147483648; chunk_size := 512 |}]
    [{| zi_owner := 1; zi_execAddr := 134217728; zi_size := 4096 |}]).

(** Harts 1 and 2 share an entry point; hart 1 carries the chunks. *)
Definition boot_set_image : HSS_BootImage :=
  seal (mk_image
    [u54_payload "u54_1" 2147483648 1; u54_payload "u54_2" 2147483648 0]
    [{| chunk_owner := 1; chunk_loadAddr := 256;
        chunk_execAddr := 2147483648; chunk_size := 64 |}]
    []).

(** Harts 1 and 2 share an entry point; hart 2 carries the chunks. *)
Definition late_primary_image : HSS_BootImage :=
  seal (mk_image
    [u54_payload "u54_1" 2147483648 0; u54_payload "u54_2" 2147483648 1]
    [{| chunk_owner := 2; chunk_loadAddr := 256;
        chunk_execAddr := 2415919104; chunk_size := 64 |}]
    []).

(** A sealed image none of whose harts has chunks. *)
Definition no_chunks_image : HSS_BootImage :=
  seal (mk_image [u54_payload "u54_1" 2147483648 0] [] []).

(** The globals once [img] is registered and DDR training and start-up are
    over; [acked] are the slots whose message the target has completed. *)
Definition booted_world (img : HSS_BootImage) (acked : list Z) : World :=
  {| pBootImage := Some img;
     pmpSetupFlag := [false; false; false; false; false];
     bootComplete := [0; 0; 0; 0; 0];
     BOOT_FAIL_CR := 0; MSS_STATUS := 0;
     notified := [EVENT_DDR_TRAINED; EVENT_STARTUP_COMPLETE];
     ipi_in_use := []; ipi_completed := acked; clock_reads := 0%nat; trace := [] |}.

Definition all_slots : list Z := [0; 1; 2; 3; 4; 5; 6; 7].

(** Machine [i] of platform [P] put in state [st], as the restart API does. *)
Definition machine_in (P : Platform) (i : nat) (st : BootStatesEnum) : StateMachine :=
  set_state st (boot_service_init P i "boot_service").

(** A transport that refuses every message for hart 2. *)
Definition refuse_hart2 (idx : Z) (tgt : HSSHartId) (msg : IPIMsg) : bool :=
  negb (tgt =? HSS_HART_U54_2)%nat.

Definition refusing_platform : Platform :=
  demo_platform_with demo_config (fun n => Z.of_nat n) refuse_hart2.

(** A clock that advances by a full second at every reading. *)
Definition slow_platform : Platform :=
  demo_platform_with demo_config (fun n => Z.of_nat n * 1000000) (fun _ _ _ => true).


(** ** The validator as the specification words it

    Follows the specification, section 4.1: validation succeeds iff the
    image pointer is not null, the magic is the plain boot magic, the
    signing check passes whenever signing is enabled, and the header CRC
    matches, the CRC being taken over the shadow header with [headerCrc] and
    [signature] zeroed and over the legacy length when [version] is 0. *)



(** Bit [source] of a restart bitmask is set. *)
Definition selected (mask : Z) (source : HSSHartId) : Prop :=
  truthy (Z.land mask (BIT source)) = true.

(** ** What a run wrote

    The writes into target memory recorded in a trace: the copies as
    (destination, source, length) and the zero fills as (destination,
    length). *)

Definition memcpy_events (t : list Event) : list (Z * Z * Z) :=
  flat_map (fun e => match e with
                     | memcpy_via_pdma dst src n => [(dst, src, n)]
                     | _ => []
                     end) t.

Definition memset_events (t : list Event) : list (Z * Z) :=
  flat_map (fun e => match e with
                     | memset0 dst n => [(dst, n)]
                     | _ => []
                     end) t.

(** The chunk under the cursor of a machine, and the condition under which
    the download handler copies from it. *)
Definition current_chunk (img : HSS_BootImage) (d : HSS_Boot_LocalData) : HSS_BootChunkDesc :=
  chunkTable img (pChunk d).

Definition download_copies (P : Platform) (c : Ctx) : bool :=
  match pBootImage (env c) with
  | Some img =>
      let d := pInstanceData (self c) in
      truthy (numChunks (hart_of img (target d)))
      && (chunkCount d <=? lastChunk (hart_of img (target d)))
      && truthy (chunk_size (current_chunk img d))
      && chunk_is_mine P (target d) (current_chunk img d)
      && HSS_PMP_CheckWrite P (target d) (chunk_execAddr (current_chunk img d))
           (chunk_size (current_chunk img d))
  | None => false
  end.

(** The zero-init chunk under the cursor, and the condition under which the
    zero-init handler fills it. *)
Definition current_zi_chunk (img : HSS_BootImage) (d : HSS_Boot_LocalData)
    : HSS_BootZIChunkDesc :=
  ziChunkTable img (pZiChunk d).

Definition zero_init_writes (P : Platform) (c : Ctx) : bool :=
  match pBootImage (env c) with
  | Some img =>
      let d := pInstanceData (self c) in
      let z := current_zi_chunk img d in
      truthy (zi_size z)
      && (Z.of_nat (target d) =? zi_owner z)
      && negb (HSS_DDR_IsAddrInDDR P (zi_execAddr z)
               && negb (existsb (TriggerEvent_eqb EVENT_DDR_TRAINED) (notified (env c))))
  | None => false
  end.

(** The platform with another permission oracle. *)
Definition with_CheckWrite (f : HSSHartId -> Z -> Z -> bool) (P : Platform) : Platform :=
  {| config := config P; ONE_SEC := ONE_SEC P;
     IPI_MAX_NUM_OUTSTANDING_COMPLETES := IPI_MAX_NUM_OUTSTANDING_COMPLETES P;
     mHSS_BOOT_MAGIC := mHSS_BOOT_MAGIC P; mHSS_COMPRESSED_MAGIC := mHSS_COMPRESSED_MAGIC P;
     BOOT_FLAG_ANCILLIARY_DATA := BOOT_FLAG_ANCILLIARY_DATA P;
     BOOT_FLAG_SKIP_OPENSBI := BOOT_FLAG_SKIP_OPENSBI P;
     BOOT_FLAG_SKIP_AUTOBOOT := BOOT_FLAG_SKIP_AUTOBOOT P;
     BOOT_FLAG_ALLOW_COLD_REBOOT := BOOT_FLAG_ALLOW_COLD_REBOOT P;
     BOOT_FLAG_ALLOW_WARM_REBOOT := BOOT_FLAG_ALLOW_WARM_REBOOT P;
     LIBERO_SETTING_APBBUS_CR := LIBERO_SETTING_APBBUS_CR P;
     PRV_M := PRV_M P; RPROC_BOOT := RPROC_BOOT P;
     PERF_CTR_UNINITIALIZED := PERF_CTR_UNINITIALIZED P;
     builtin_dtb := builtin_dtb P;
     sizeof_HSS_BootImage := sizeof_HSS_BootImage P;
     sizeof_HSS_BootImage_v0 := sizeof_HSS_BootImage_v0 P;
     object_bytes := object_bytes P; CRC32_calculate := CRC32_calculate P;
     HSS_Boot_Secure_CheckCodeSigning := HSS_Boot_Secure_CheckCodeSigning P;
     HSS_PMP_CheckWrite := f;
     HSS_DDR_IsAddrInDDR := HSS_DDR_IsAddrInDDR P;
     perfctr_index := perfctr_index P; clock := clock P;
     ipi_deliver_ok := ipi_deliver_ok P |}.

(** ** Slots held by a machine *)

(** No auxiliary slot is outstanding: every entry of [msgIndexAux] is the
    sentinel. *)
Definition no_aux_outstanding (P : Platform) (d : HSS_Boot_LocalData) : Prop :=
  msgIndexAux d = repeat (IPI_MAX_NUM_OUTSTANDING_COMPLETES P) 4.


(** The slots a machine holds: the entries of its slot fields other than
    the sentinel. *)
Definition held_slots (P : Platform) (d : HSS_Boot_LocalData) : list Z :=
  List.filter (fun idx => negb (idx =? IPI_MAX_NUM_OUTSTANDING_COMPLETES P))
    (msgIndex d :: msgIndexAux d).




(** Hart 1 of [slow_platform] in the Wait state, its entry-point message
    outstanding in slot 0, the start time as recorded when the boot began. *)
Definition waiting_machine : StateMachine :=
  set_prevState (Some BOOT_OPENSBI_INIT)
    (set_pInstanceData
       (set_msgIndexAux [0; 8; 8; 8] (localData slow_platform 0))
       (machine_in slow_platform 0 BOOT_WAIT)).

Definition waiting_ctx : Ctx :=
  {| self := waiting_machine;
     env := set_ipi_in_use [0] (booted_world (single_chunk_image 512) []) |}.

(** Hart 1 of [refusing_platform] in OpenSBIInit, about to visit hart 2, its
    slots free as [register_harts] left them on exit from Download. *)
Definition opensbi_ctx : Ctx :=
  {| self := set_pInstanceData
               (set_iterator 1
                  (set_msgIndex 8 (set_msgIndexAux (repeat 8 4)
                                     (localData refusing_platform 0))))
               (machine_in refusing_platform 0 BOOT_OPENSBI_INIT);
     env := booted_world boot_set_image [] |}.

(** ** Boot-sets

    Follows the specification, glossary: the boot-set of a hart is the set
    of harts that share its entry point, and its primary is the
    lowest-indexed hart of the set. *)

Definition boot_set (img : HSS_BootImage) (h : HSSHartId) : list HSSHartId :=
  List.filter (fun peer => truthy (entryPoint (hart_of img h))
                           && (entryPoint (hart_of img peer) =? entryPoint (hart_of img h)))
              [HSS_HART_U54_1; HSS_HART_U54_2; HSS_HART_U54_3; HSS_HART_U54_4].

Definition lowest_indexed_member (img : HSS_BootImage) (h : HSSHartId) : HSSHartId :=
  hd h (boot_set img h).

(** What the instance of hart [tgt] may tell the domain registry: it
    registers or deregisters only as a hart that has chunks and an entry
    point, registers only itself and the harts with its entry point, and
    names itself as the boot hart. *)
Definition registers_member (img : HSS_BootImage) (tgt : HSSHartId) (e : Event) : Prop :=
  match e with
  | domains_register_hart peer boot =>
      primary_boot_hart img tgt = true /\ boot = tgt
      /\ (peer = tgt \/ entryPoint (hart_of img peer) = entryPoint (hart_of img tgt))
  | domains_register_boot_hart _ _ boot _ entry _ _ _ =>
      primary_boot_hart img tgt = true /\ boot = tgt
      /\ entry = entryPoint (hart_of img tgt)
  | domains_deregister_hart _ => primary_boot_hart img tgt = true
  | debug_printf _ _ => primary_boot_hart img tgt = true
  | _ => False
  end.

(** What the instance of hart [tgt] may send while it iterates over its
    peers in OpenSBIInit: entry-point messages, as a hart that has chunks
    and an entry point, to other harts with its entry point. *)
Definition delivers_to_member (img : HSS_BootImage) (tgt : HSSHartId) (e : Event) : Prop :=
  match e with
  | ipi_alloc _ => primary_boot_hart img tgt = true
  | ipi_deliver _ peer msg _ entry _ _ =>
      primary_boot_hart img tgt = true /\ peer <> tgt
      /\ entryPoint (hart_of img peer) = entryPoint (hart_of img tgt)
      /\ entry = entryPoint (hart_of img peer)
      /\ (msg = IPI_MSG_OPENSBI_INIT \/ msg = IPI_MSG_GOTO)
  | debug_printf _ _ => primary_boot_hart img tgt = true
  | _ => False
  end.

(** Hart 1 of [demo_platform] in the Wait state as primary of the boot-set
    of [boot_set_image]: slot 0 carries the entry-point message of hart 2,
    slot 1 its own; hart 2 has completed its message, hart 1 has not. *)
Definition partial_ack_ctx : Ctx :=
  {| self := set_pInstanceData
               (set_msgIndex 8 (set_msgIndexAux [1; 0; 8; 8] (localData demo_platform 0)))
               (machine_in demo_platform 0 BOOT_WAIT);
     env := set_ipi_in_use [1; 0] (booted_world boot_set_image [0]) |}.

(** * Properties *)

(** ** Running the monad in proofs *)

Ltac mrun :=
  repeat (cbv beta iota delta
            [mbind M_bind mret M_ret get gets modify stop assert when in_world in_sys
             emit mHSS_DEBUG_PRINTF my update goto
             set_state set_prevState set_startTime set_executionCount set_pInstanceData
             set_pChunk set_pZiChunk set_chunkCount set_subChunkOffset set_msgIndex
             set_hartMask set_perfCtr set_iterator set_ancilliaryData set_msgIndexAux
             set_pBootImage set_pmpSetupFlag set_bootComplete set_BOOT_FAIL_CR
             set_MSS_STATUS set_notified set_ipi_in_use set_clock_reads set_trace
             set_self set_env set_boot_service set_sys set_aux_at];
          cbn -[Nat.eqb Z.eqb Z.leb Z.ltb Z.of_nat free_all_msg_indexes check_for_ipi_acks
               register_harts common_boot_message_delivery held_slots mem_Z remove_Z]).

Lemma bind_Done {S A B} (m : M S A) (f : A -> M S B) s a s' :
  m s = Done a s' -> (m ≫= f) s = f a s'.
Proof. intros H. unfold mbind, M_bind. now rewrite H. Qed.

Lemma bind_Stopped {S A B} (m : M S A) (f : A -> M S B) s e s' :
  m s = Stopped e s' -> (m ≫= f) s = Stopped e s'.
Proof. intros H. unfold mbind, M_bind. now rewrite H. Qed.

(** A loop whose body keeps an invariant and never faults keeps it. *)
Lemma for_each_invariant {S A B} (I : B -> S -> Prop) (l : list A)
    (body : A -> B -> M S B) :
  (forall x acc s, In x l -> I acc s ->
     exists acc' s', body x acc s = Done acc' s' /\ I acc' s') ->
  forall acc s, I acc s ->
    exists acc' s', for_each l acc body s = Done acc' s' /\ I acc' s'.
Proof.
  induction l as [|x l IH]; intros Hbody acc s HI.
  - exists acc, s. split; [reflexivity | assumption].
  - destruct (Hbody x acc s (or_introl eq_refl) HI) as (acc1 & s1 & Hrun & HI1).
    destruct (IH (fun y a t Hy => Hbody y a t (or_intror Hy)) acc1 s1 HI1)
      as (acc2 & s2 & Hrest & HI2).
    exists acc2, s2. split; [| assumption].
    cbn [for_each]. now rewrite (bind_Done _ _ _ _ _ Hrun).
Qed.

(** ** The PMP setup handler *)

Section PMPSetup.

Variable P : Platform.

(** A call on a hart whose latch is set changes nothing but the U54 state. *)
Lemma PMPSetupHandler_latched (h : HSSHartId) (w : World) :
  nth h (pmpSetupFlag w) false = true ->
  HSS_Boot_PMPSetupHandler P h w
  = Done IPI_SUCCESS (set_trace (trace w ++ [u54_set_state h HSS_State_Booting]) w).
Proof.
  intros Hlatch. unfold HSS_Boot_PMPSetupHandler. mrun.
  now rewrite Hlatch.
Qed.

(** A call on a hart whose latch is clear configures the PMP and sets it. *)
Lemma PMPSetupHandler_first (h : HSSHartId) (w : World) :
  nth h (pmpSetupFlag w) false = false ->
  HSS_Boot_PMPSetupHandler P h w
  = Done IPI_SUCCESS
      (set_trace (trace w ++ [u54_set_state h HSS_State_Booting; init_pmp h;
                              mss_set_apb_bus_cr (LIBERO_SETTING_APBBUS_CR P)])
         (set_pmpSetupFlag (<[h := true]> (pmpSetupFlag w)) w)).
Proof.
  intros Hlatch. unfold HSS_Boot_PMPSetupHandler. mrun.
  rewrite Hlatch. mrun. now rewrite <- !app_assoc.
Qed.

(** C9. Two calls of [HSS_Boot_PMPSetupHandler] on the same hart, starting
    with its latch clear, configure the PMP exactly once: the first call
    runs [init_pmp] and the APB bus configuration and sets the latch, the
    second finds the latch set and configures nothing, and both return
    [IPI_SUCCESS]. *)
Theorem PMPSetupHandler_twice (h : HSSHartId) (w : World) :
  (h < length (pmpSetupFlag w))%nat ->
  nth h (pmpSetupFlag w) false = false ->
  exists w1 w2,
    HSS_Boot_PMPSetupHandler P h w = Done IPI_SUCCESS w1
    /\ HSS_Boot_PMPSetupHandler P h w1 = Done IPI_SUCCESS w2
    /\ nth h (pmpSetupFlag w1) false = true
    /\ trace w1 = trace w ++ [u54_set_state h HSS_State_Booting; init_pmp h;
                              mss_set_apb_bus_cr (LIBERO_SETTING_APBBUS_CR P)]
    /\ pmpSetupFlag w2 = pmpSetupFlag w1
    /\ trace w2 = trace w1 ++ [u54_set_state h HSS_State_Booting].
Proof.
  intros Hlen Hlatch.
  eexists. eexists.
  split; [apply PMPSetupHandler_first; assumption |].
  assert (Hset : nth h (<[h := true]> (pmpSetupFlag w)) false = true).
  { rewrite nth_lookup, list_lookup_insert_eq by assumption. reflexivity. }
  split; [apply PMPSetupHandler_latched; exact Hset |].
  repeat split; try reflexivity. exact Hset.
Qed.

End PMPSetup.

Lemma PMPSetupHandler_twice_witness :
  exists w1 w2,
    HSS_Boot_PMPSetupHandler demo_platform HSS_HART_U54_1 World_init
      = Done IPI_SUCCESS w1
    /\ HSS_Boot_PMPSetupHandler demo_platform HSS_HART_U54_1 w1 = Done IPI_SUCCESS w2
    /\ nth HSS_HART_U54_1 (pmpSetupFlag w1) false = true
    /\ trace w1 = trace World_init
                  ++ [u54_set_state HSS_HART_U54_1 HSS_State_Booting;
                      init_pmp HSS_HART_U54_1;
                      mss_set_apb_bus_cr (LIBERO_SETTING_APBBUS_CR demo_platform)]
    /\ pmpSetupFlag w2 = pmpSetupFlag w1
    /\ trace w2 = trace w1 ++ [u54_set_state HSS_HART_U54_1 HSS_State_Booting].
Proof.
  apply (PMPSetupHandler_twice demo_platform HSS_HART_U54_1 World_init).
  - unfold World_init, HSS_HART_U54_1. cbn. lia.
  - reflexivity.
Defined.

(** ** Image validation *)

Section Validation.

Variable P : Platform.

(** The two writes to the shadow header touch the CRC and the signature and
    nothing else. *)
Lemma shadowHdr_fields (hdr : HSS_BootImage) :
  headerCrc (shadowHdr hdr) = 0
  /\ signature (shadowHdr hdr) = repeat 0 (length (signature hdr))
  /\ magic (shadowHdr hdr) = magic hdr
  /\ version (shadowHdr hdr) = version hdr
  /\ set_name (shadowHdr hdr) = set_name hdr
  /\ chunkTableOffset (shadowHdr hdr) = chunkTableOffset hdr
  /\ ziChunkTableOffset (shadowHdr hdr) = ziChunkTableOffset hdr
  /\ hart (shadowHdr hdr) = hart hdr.
Proof. repeat split. Qed.

(** The shadow, hence the computed CRC, does not depend on the stored CRC
    or on the signature bytes, only on how many there are. *)
Lemma shadowHdr_blind (hdr : HSS_BootImage) (crc : Z) (sig : list Z) :
  length sig = length (signature hdr) ->
  shadowHdr (set_signature sig (set_headerCrc crc hdr)) = shadowHdr hdr.
Proof.
  intros Hlen. unfold shadowHdr, set_signature, set_headerCrc, zeroed. cbn.
  now rewrite Hlen.
Qed.


End Validation.

Section Validator.

Variable P : Platform.



End Validator.

(** ** Restarting cores *)

Section Restart.

Variable P : Platform.

Lemma selected_after_clear (mask cleared : Z) (source : HSSHartId) :
  selected (Z.land mask (not32 cleared)) source -> selected mask source.
Proof.
  unfold selected, truthy. rewrite !negb_true_iff, !Z.eqb_neq.
  intros H Hzero. apply H.
  rewrite <- Z.land_assoc, (Z.land_comm (not32 cleared)), Z.land_assoc, Hzero.
  apply Z.land_0_l.
Qed.

Lemma in_sys_Done {A} (m : M World A) (s : System) a w :
  m (sys s) = Done a w -> in_sys m s = Done a (set_sys w s).
Proof. intros H. unfold in_sys. now rewrite H. Qed.

(** With a registered image that validates, a bitmask that selects only
    harts without chunks restarts nothing. *)
Lemma RestartCores_no_chunks (fuel : nat) (mask : Z) (s : System)
    (img : HSS_BootImage) (w' : World) :
  pBootImage (sys s) = Some img ->
  HSS_Boot_ValidateImage P fuel (Some img) (sys s) = Done true w' ->
  (forall source, In source (seq 1 4) -> selected mask source ->
     numChunks (hart_of img source) = 0) ->
  HSS_Boot_RestartCores_Using_Bitmask P fuel mask s = Done IPI_FAIL (set_sys w' s).
Proof.
  intros Himg Hvalid Hzero.
  unfold HSS_Boot_RestartCores_Using_Bitmask.
  rewrite (bind_Done _ _ s (Some img) s) by (unfold gets; now rewrite Himg).
  rewrite (bind_Done _ _ _ _ _ (in_sys_Done _ _ _ _ Hvalid)). cbn [negb].
  match goal with
  | |- (for_each ?l ?a0 ?body ≫= _) _ = _ =>
      assert (Hinv : exists acc' s',
                for_each l a0 body (set_sys w' s) = Done acc' s'
                /\ (acc'.1 = IPI_FAIL /\ s' = set_sys w' s
                    /\ forall source, selected acc'.2 source -> selected mask source));
      [apply (for_each_invariant
                (fun (a : IPIStatusCode * Z) (t : System) =>
                   a.1 = IPI_FAIL /\ t = set_sys w' s
                   /\ forall source, selected a.2 source -> selected mask source))
      | destruct Hinv as (acc' & s' & Hloop & Hres & Hs' & _)]
  end.
  - intros source [result m] t Hin (Hres & -> & Hsub). cbn [fst snd] in *.
    destruct (truthy (Z.land m (BIT source))) eqn:Hsel; cbn [negb].
    + assert (Hnone : numChunks (hart_of img source) = 0)
        by (apply Hzero; [exact Hin | apply Hsub; exact Hsel]).
      unfold truthy at 1. rewrite Hnone. cbn.
      eexists. eexists. split; [reflexivity |].
      cbn [fst snd]. repeat split; [exact Hres |].
      intros src Hsrc. apply Hsub. eapply selected_after_clear. exact Hsrc.
    + eexists. eexists. split; [reflexivity |].
      cbn [fst snd]. repeat split; assumption.
  - cbn [fst snd]. repeat split. auto.
  - rewrite (bind_Done _ _ _ _ _ Hloop). subst s'. cbn. now rewrite Hres.
Qed.

(** Among the harts 1 to 4 either one is selected and has chunks, or every
    selected one has none. *)
Lemma selected_chunks_dec (mask : Z) (img : HSS_BootImage) :
  (exists source, In source (seq 1 4) /\ selected mask source
                  /\ numChunks (hart_of img source) <> 0)
  \/ (forall source, In source (seq 1 4) -> selected mask source ->
        numChunks (hart_of img source) = 0).
Proof.
  assert (Hone : forall source,
    (selected mask source /\ numChunks (hart_of img source) <> 0)
    \/ (selected mask source -> numChunks (hart_of img source) = 0)).
  { intros source. unfold selected.
    destruct (truthy (Z.land mask (BIT source))); [| right; discriminate].
    destruct (Z.eq_dec (numChunks (hart_of img source)) 0); [right | left]; auto. }
  destruct (Hone 1%nat) as [H1 | H1]; [left; exists 1%nat; cbn; tauto |].
  destruct (Hone 2%nat) as [H2 | H2]; [left; exists 2%nat; cbn; tauto |].
  destruct (Hone 3%nat) as [H3 | H3]; [left; exists 3%nat; cbn; tauto |].
  destruct (Hone 4%nat) as [H4 | H4]; [left; exists 4%nat; cbn; tauto |].
  right. intros source Hin. cbn in Hin.
  destruct Hin as [<- | [<- | [<- | [<- | []]]]]; assumption.
Qed.

(** C10. [HSS_Boot_RestartCores_Using_Bitmask] returns [IPI_SUCCESS] only
    if a selected hart, among harts 1 to 4, has a non-zero [numChunks]; when
    the image is registered and validates and every selected hart has
    [numChunks == 0], it returns [IPI_FAIL] and leaves the state of every
    boot machine as it was. *)
Theorem RestartCores_success_needs_chunks (fuel : nat) (mask : Z) (s : System)
    (img : HSS_BootImage) :
  pBootImage (sys s) = Some img ->
  (forall s', HSS_Boot_RestartCores_Using_Bitmask P fuel mask s = Done IPI_SUCCESS s' ->
     exists source, In source (seq 1 4) /\ selected mask source
                    /\ numChunks (hart_of img source) <> 0)
  /\ (forall w',
        HSS_Boot_ValidateImage P fuel (Some img) (sys s) = Done true w' ->
        (forall source, In source (seq 1 4) -> selected mask source ->
           numChunks (hart_of img source) = 0) ->
        exists s',
          HSS_Boot_RestartCores_Using_Bitmask P fuel mask s = Done IPI_FAIL s'
          /\ boot_service s' = boot_service s).
Proof.
  intros Himg. split.
  - intros s' Hrun.
    destruct (selected_chunks_dec mask img) as [Hsome | Hnone]; [exact Hsome |].
    exfalso. revert Hrun.
    unfold HSS_Boot_RestartCores_Using_Bitmask.
    rewrite (bind_Done _ _ s (Some img) s) by (unfold gets; now rewrite Himg).
    destruct (HSS_Boot_ValidateImage P fuel (Some img) (sys s)) as [[|] w' | e w'] eqn:Hv.
    + pose proof (RestartCores_no_chunks fuel mask s img w' Himg Hv Hnone) as Hfail.
      unfold HSS_Boot_RestartCores_Using_Bitmask in Hfail.
      rewrite (bind_Done _ _ s (Some img) s) in Hfail by (unfold gets; now rewrite Himg).
      rewrite Hfail. discriminate.
    + rewrite (bind_Done _ _ _ _ _ (in_sys_Done _ _ _ _ Hv)). cbn. discriminate.
    + unfold in_sys, mbind, M_bind. rewrite Hv. discriminate.
  - intros w' Hvalid Hnone. eexists. split.
    + eapply RestartCores_no_chunks; eassumption.
    + reflexivity.
Qed.




End Restart.

Lemma RestartCores_success_needs_chunks_witness :
  exists s',
    HSS_Boot_RestartCores_Using_Bitmask demo_platform 0 (BIT HSS_HART_U54_1)
      (set_sys (booted_world no_chunks_image []) (System_init demo_platform))
    = Done IPI_FAIL s'
    /\ boot_service s' = boot_service (System_init demo_platform).
Proof.
  eapply (proj2 (RestartCores_success_needs_chunks demo_platform 0 (BIT HSS_HART_U54_1)
                   (set_sys (booted_world no_chunks_image []) (System_init demo_platform))
                   no_chunks_image eq_refl)).
  - vm_compute. reflexivity.
  - intros source Hin _. cbn in Hin.
    destruct Hin as [<- | [<- | [<- | [<- | []]]]]; reflexivity.
Defined.



(** ** Zero-init and download *)

Lemma memcpy_events_app (t u : list Event) :
  memcpy_events (t ++ u) = memcpy_events t ++ memcpy_events u.
Proof. apply flat_map_app. Qed.

Lemma memset_events_app (t u : list Event) :
  memset_events (t ++ u) = memset_events t ++ memset_events u.
Proof. apply flat_map_app. Qed.

(** Case analysis on the tests of a handler, outermost first. *)
Ltac split_tests :=
  repeat match goal with
         | |- context [if ?b then _ else _] =>
             match b with
             | context [if _ then _ else _] => fail 1
             | _ => destruct b eqn:?; mrun
             end
         | |- context [(?a && ?b)%bool] => destruct a eqn:?; mrun
         end.

Ltac absurd_tests :=
  rewrite ?andb_false_r, ?andb_true_r in *; try discriminate; try congruence.

Section Chunks.

Variable P : Platform.

(** Every tick of the download handler copies nothing, or one sub-chunk of
    [BOOT_SUB_CHUNK_SIZE] bytes of the chunk under the cursor, and it copies
    exactly when [download_copies] holds: the chunk is within the hart's
    range, is not the sentinel, is owned by the hart and passes
    [HSS_PMP_CheckWrite] for its address and size. *)
Lemma download_tick_copies (c : Ctx) :
  memcpy_events (trace (env (final (boot_download_chunks_handler P c))))
  = memcpy_events (trace (env c))
    ++ (if download_copies P c then
          match pBootImage (env c) with
          | Some img =>
              let d := pInstanceData (self c) in
              [(wrap64 (chunk_execAddr (current_chunk img d) + subChunkOffset d),
                wrap64 (image_base img + chunk_loadAddr (current_chunk img d)
                        + subChunkOffset d),
                BOOT_SUB_CHUNK_SIZE)]
          | None => []
          end
        else []).
Proof.
  unfold boot_download_chunks_handler, download_copies, assert_image, current_chunk,
    boot_do_download_chunk, debug_chunk_downloads.
  destruct c as [m w]. mrun.
  destruct (pBootImage w) as [img |] eqn:Himg; mrun;
    [| now rewrite app_nil_r].
  split_tests;
    rewrite ?memcpy_events_app, ?app_nil_r, <- ?app_assoc; cbn;
    try rewrite Himg; try reflexivity.
  all: absurd_tests.
Qed.

(** The download handler writes to target memory by copying only. *)
Lemma download_tick_no_memset (c : Ctx) :
  memset_events (trace (env (final (boot_download_chunks_handler P c))))
  = memset_events (trace (env c)).
Proof.
  unfold boot_download_chunks_handler, assert_image,
    boot_do_download_chunk, debug_chunk_downloads.
  destruct c as [m w]. mrun.
  destruct (pBootImage w) as [img |] eqn:Himg; mrun; [| reflexivity].
  split_tests;
    rewrite ?memset_events_app, ?app_nil_r, <- ?app_assoc; cbn;
    rewrite ?app_nil_r; try reflexivity.
Qed.

(** A chunk in range that fails the ownership or permission test is
    skipped: the cursor moves to the next chunk, one message is logged (an
    error when the owner field is the hart itself, a warning otherwise), and
    nothing else changes; in particular the machine stays in its state. *)
Lemma download_tick_skips (m : StateMachine) (w : World) (img : HSS_BootImage) :
  let d := pInstanceData m in
  pBootImage w = Some img ->
  truthy (numChunks (hart_of img (target d))) = true ->
  (chunkCount d <=? lastChunk (hart_of img (target d))) = true ->
  truthy (chunk_size (current_chunk img d)) = true ->
  chunk_is_mine P (target d) (current_chunk img d)
  && HSS_PMP_CheckWrite P (target d) (chunk_execAddr (current_chunk img d))
       (chunk_size (current_chunk img d)) = false ->
  boot_download_chunks_handler P {| self := m; env := w |}
  = Done tt
      {| self := set_pInstanceData (set_pChunk (S (pChunk d)) d) m;
         env := set_trace
                  (trace w ++
                   [if chunk_owner (current_chunk img d) =? Z.of_nat (target d)
                    then debug_printf LOG_ERROR "Skipping chunk due to invalid permissions"
                    else debug_printf LOG_WARN "Skipping chunk due to ownership"]) w |}.
Proof.
  cbv zeta. unfold current_chunk. intros Himg Hn Hcount Hsize Hdeny.
  unfold boot_download_chunks_handler, assert_image. mrun.
  rewrite Himg. mrun. rewrite Hn. mrun. rewrite Hcount, Hsize. mrun.
  rewrite Hdeny. mrun.
  destruct (chunk_owner _ =? _); mrun; rewrite ?Himg; reflexivity.
Qed.

(** Every tick of the zero-init handler fills nothing, or the whole chunk
    under the cursor, and it fills exactly when [zero_init_writes] holds:
    the chunk is not the sentinel, is owned by the hart, and is outside DDR
    or DDR is trained. *)
Lemma zero_init_tick_writes (c : Ctx) :
  memset_events (trace (env (final (boot_zero_init_chunks_handler P c))))
  = memset_events (trace (env c))
    ++ (if zero_init_writes P c then
          match pBootImage (env c) with
          | Some img =>
              let z := current_zi_chunk img (pInstanceData (self c)) in
              [(zi_execAddr z, zi_size z)]
          | None => []
          end
        else []).
Proof.
  unfold boot_zero_init_chunks_handler, zero_init_writes, assert_image,
    current_zi_chunk, boot_do_zero_init_chunk, debug_chunk_downloads,
    HSS_Trigger_IsNotified.
  destruct c as [m w]. mrun.
  destruct (pBootImage w) as [img |] eqn:Himg; mrun;
    [| now rewrite app_nil_r].
  split_tests;
    rewrite ?memset_events_app, ?app_nil_r, <- ?app_assoc; cbn;
    try rewrite Himg; try reflexivity.
  all: absurd_tests.
Qed.

(** The zero-init handler never consults the permission oracle: it runs the
    same whatever [HSS_PMP_CheckWrite] answers. *)
Lemma zero_init_ignores_CheckWrite (f : HSSHartId -> Z -> Z -> bool) (c : Ctx) :
  boot_zero_init_chunks_handler (with_CheckWrite f P) c
  = boot_zero_init_chunks_handler P c.
Proof. reflexivity. Qed.

End Chunks.

(** C1.  The specification asks that every write into target memory, the zero-init
    fills included, happens only when [HSS_PMP_CheckWrite] allows it.  The
    zero-init handler does not ask: for hart 1 and a zero-init chunk of 4096
    bytes at [0x0800_0000], which [HSS_PMP_CheckWrite] refuses, one tick in
    the ZeroInit state fills the chunk and moves the cursor on. *)
Theorem zero_init_writes_without_permission :
  let c := {| self := machine_in demo_platform 0 BOOT_ZERO_INIT_CHUNKS;
              env := booted_world zi_outside_image [] |} in
  HSS_PMP_CheckWrite demo_platform (target (pInstanceData (self c))) 134217728 4096 = false
  /\ boot_zero_init_chunks_handler demo_platform c
     = Done tt
         {| self := set_pInstanceData (set_pZiChunk 1 (pInstanceData (self c))) (self c);
            env := set_trace [memset0 134217728 4096] (env c) |}.
Proof. cbv zeta. split; vm_compute; reflexivity. Qed.

(** C3.  The specification asks for copies of [min(BOOT_SUB_CHUNK_SIZE, remaining)]
    bytes.  The handler always copies [BOOT_SUB_CHUNK_SIZE] bytes: a chunk
    of 100 bytes is copied by one tick of 256 bytes, after which the cursor
    has advanced once; a chunk of 512 bytes takes three ticks of 256 bytes,
    768 bytes in all, the cursor staying on the chunk after the second. *)
Theorem sub_chunk_copy_is_not_clamped :
  (let c := {| self := machine_in demo_platform 0 BOOT_DOWNLOAD_CHUNKS;
               env := booted_world (single_chunk_image 100) [] |} in
   let c' := final (boot_download_chunks_handler demo_platform c) in
   Z.min BOOT_SUB_CHUNK_SIZE (100 - subChunkOffset (pInstanceData (self c))) = 100
   /\ memcpy_events (trace (env c')) = [(2147483648, 2684354816, 256)]
   /\ pChunk (pInstanceData (self c')) = 1%nat
   /\ chunkCount (pInstanceData (self c')) = 1
   /\ subChunkOffset (pInstanceData (self c')) = 0)
  /\
  (let tick := boot_download_chunks_handler demo_platform in
   let c := {| self := machine_in demo_platform 0 BOOT_DOWNLOAD_CHUNKS;
               env := booted_world (single_chunk_image 512) [] |} in
   let c2 := final ((tick;; tick) c) in
   let c3 := final ((tick;; tick;; tick) c) in
   memcpy_events (trace (env c2))
   = [(2147483648, 2684354816, 256); (2147483904, 2684355072, 256)]
   /\ pChunk (pInstanceData (self c2)) = 0%nat
   /\ subChunkOffset (pInstanceData (self c2)) = 512
   /\ memcpy_events (trace (env c3))
      = [(2147483648, 2684354816, 256); (2147483904, 2684355072, 256);
         (2147484160, 2684355328, 256)]
   /\ pChunk (pInstanceData (self c3)) = 1%nat).
Proof. cbv zeta. repeat split; vm_compute; reflexivity. Qed.

(** ** Acknowledgements and time-outs *)

Section Acks.

Variable P : Platform.

Local Abbreviation NO_MSG := (IPI_MAX_NUM_OUTSTANDING_COMPLETES P).

Lemma four_entries {A} (l : list A) :
  length l = 4%nat -> exists a b c d, l = [a; b; c; d].
Proof.
  destruct l as [| a [| b [| c [| d [| e l]]]]]; cbn; intros H; try discriminate.
  now exists a, b, c, d.
Qed.

(** [register_harts], run on entry to SetupPMP and on exit from Download,
    leaves no slot field set: the primary field and every auxiliary field
    hold the sentinel afterwards. *)
Lemma register_harts_clears_slots (m : StateMachine) (w : World) (img : HSS_BootImage) :
  pBootImage w = Some img ->
  length (msgIndexAux (pInstanceData m)) = 4%nat ->
  exists c',
    register_harts P {| self := m; env := w |} = Done tt c'
    /\ msgIndex (pInstanceData (self c')) = NO_MSG
    /\ no_aux_outstanding P (pInstanceData (self c'))
    /\ state (self c') = state m
    /\ ipi_in_use (env c') = ipi_in_use w.
Proof.
  intros Himg Hlen.
  destruct (four_entries _ Hlen) as (a & b & c0 & d & Haux).
  unfold register_harts, image, no_aux_outstanding. mrun. rewrite Himg, Haux. mrun.
  destruct (primary_boot_hart img (target (pInstanceData m))); mrun.
  - split_tests; eexists; (split; [reflexivity |]); mrun; repeat split.
  - eexists. split; [reflexivity |]. mrun. repeat split.
Qed.

(** The SetupPMP handler touches no auxiliary slot field. *)
Lemma setup_pmp_handler_keeps_aux (c : Ctx) :
  msgIndexAux (pInstanceData (self (final (boot_setup_pmp_handler P c))))
  = msgIndexAux (pInstanceData (self c)).
Proof.
  unfold boot_setup_pmp_handler, HSS_Boot_PMPSetupRequest, IPI_MessageAlloc,
    IPI_MessageDeliver, IPI_MessageFree.
  destruct c as [m w]. mrun.
  split_tests; try reflexivity.
  all: destruct (find _ _); mrun; split_tests; reflexivity.
Qed.

(** Hence a machine leaves its first tick in SetupPMP, the entry hook
    followed by the handler, with no auxiliary slot outstanding: this is the
    state in which SetupPMPComplete finds it. *)
Lemma setup_pmp_leaves_no_aux (m : StateMachine) (w : World) (img : HSS_BootImage) :
  pBootImage w = Some img ->
  length (msgIndexAux (pInstanceData m)) = 4%nat ->
  no_aux_outstanding P
    (pInstanceData (self (final ((boot_setup_pmp_onEntry P;; boot_setup_pmp_handler P)
                                   {| self := m; env := w |})))).
Proof.
  intros Himg Hlen.
  destruct (register_harts_clears_slots m w img Himg Hlen)
    as (c' & Hrun & _ & Haux & _).
  unfold boot_setup_pmp_onEntry. rewrite (bind_Done _ _ _ _ _ Hrun).
  unfold no_aux_outstanding. rewrite setup_pmp_handler_keeps_aux. exact Haux.
Qed.







(** A tick in the Wait state does not depend on the start time the machine
    had recorded: the handler overwrites it with the current time before it
    tests for the time-out. *)
Lemma wait_handler_forgets_startTime (m : StateMachine) (w : World) (t : Z) :
  boot_wait_handler P {| self := set_startTime t m; env := w |}
  = boot_wait_handler P {| self := m; env := w |}.
Proof. reflexivity. Qed.

(** The time-out of the Wait state fires only when the clock passes the
    whole [BOOT_WAIT_TIMEOUT] between the two readings of one tick. *)
Lemma wait_handler_timeout (m : StateMachine) (w : World) (img : HSS_BootImage) :
  pBootImage w = Some img ->
  truthy (entryPoint (hart_of img (target (pInstanceData m)))) = true ->
  (wrap64 (clock P (clock_reads w) + BOOT_WAIT_TIMEOUT P)
   <? clock P (S (clock_reads w))) = false ->
  boot_wait_handler P {| self := m; env := w |}
  = (acked ← check_for_ipi_acks P;
     when acked
       (in_world (mHSS_ReadModWriteRegU32_MSS_STATUS 65535
                    (BIT (target (pInstanceData m) - 1)));;
        goto BOOT_COMPLETE))
      {| self := set_startTime (clock P (clock_reads w)) m;
         env := set_clock_reads (S (S (clock_reads w))) w |}.
Proof.
  intros Himg Hentry Hclock.
  unfold boot_wait_handler, HSS_Timer_IsElapsed, HSS_GetTime, image. mrun.
  rewrite Himg. mrun. rewrite Hentry. mrun. rewrite Hclock. reflexivity.
Qed.

End Acks.


(** C4.  The specification asks for a time-out five seconds after the start time
    recorded on entry to Wait.  [boot_wait_onEntry] records nothing and the
    handler resets the start time at every tick, so the time-out does not
    fire: hart 1, its entry-point message never acknowledged, is still in
    Wait after 100 ticks and 200 seconds on the clock, still holds slot 0,
    and no slot has been freed.  The same holds of a single tick of the
    handler taken 200 seconds after the recorded start time: it only
    records the time anew. *)
Theorem wait_timeout_does_not_fire :
  let c' := final (run_ticks slow_platform 100 waiting_ctx) in
  let late := {| self := waiting_machine;
                 env := set_clock_reads 200 (env waiting_ctx) |} in
  (clock slow_platform (clock_reads (env late)) = 200000000
   /\ boot_wait_handler slow_platform late
      = Done tt {| self := set_startTime 200000000 waiting_machine;
                   env := set_clock_reads 202 (env waiting_ctx) |})
  /\ state (self waiting_ctx) = BOOT_WAIT
  /\ startTime (self waiting_ctx) = 0
  /\ BOOT_WAIT_TIMEOUT slow_platform = 5000000
  /\ clock slow_platform (clock_reads (env c')) = 200000000
  /\ state (self c') = BOOT_WAIT
  /\ startTime (self c') = 198000000
  /\ held_slots slow_platform (pInstanceData (self c')) = [0]
  /\ ipi_in_use (env c') = [0]
  /\ trace (env c') = [].
Proof. cbv zeta. repeat split; vm_compute; reflexivity. Qed.

(** The other half of the Wait state works as specified: once every
    outstanding message is complete the handler frees the slots, sets the
    status bit of the hart and goes to Complete. *)
Lemma wait_handler_acked_example :
  let c := {| self := self partial_ack_ctx;
              env := set_ipi_in_use [1; 0] (booted_world boot_set_image [0; 1]) |} in
  let c' := final (boot_wait_handler demo_platform c) in
  state (self c') = BOOT_COMPLETE
  /\ MSS_STATUS (env c') = BIT (HSS_HART_U54_1 - 1)
  /\ held_slots demo_platform (pInstanceData (self c')) = []
  /\ ipi_in_use (env c') = []
  /\ trace (env c') = [ipi_free 1; ipi_free 0].
Proof. cbv zeta. repeat split; vm_compute; reflexivity. Qed.

(** ** Boot-sets and their primary *)

Section BootSets.

Variable P : Platform.

(** What [register_harts] tells the registry. *)
Lemma register_harts_events (m : StateMachine) (w : World) (img : HSS_BootImage) :
  pBootImage w = Some img ->
  exists evs,
    trace (env (final (register_harts P {| self := m; env := w |}))) = trace w ++ evs
    /\ Forall (registers_member img (target (pInstanceData m))) evs
    /\ (primary_boot_hart img (target (pInstanceData m)) = false -> evs = []).
Proof.
  intros Himg. unfold register_harts, image. mrun. rewrite Himg. mrun.
  destruct (primary_boot_hart img (target (pInstanceData m))) eqn:Hprimary; mrun.
  2:{ exists []. now rewrite app_nil_r. }
  split_tests; rewrite <- ?app_assoc; cbn [app];
    (eexists; split; [try reflexivity; now rewrite app_nil_r |]);
    (split; [| discriminate]);
    repeat (apply Forall_cons; split); try apply Forall_nil;
    cbn; rewrite ?Hprimary; repeat split.
  all: match goal with
       | |- ?a = ?b \/ ?x = ?y =>
           match goal with
           | H : (a =? b)%nat || (x =? y) = true |- _ =>
               apply orb_true_iff in H; destruct H as [H | H];
               [left; now apply Nat.eqb_eq | right; now apply Z.eqb_eq]
           end
       end.
Qed.

(** What one tick of the OpenSBIInit handler sends. *)
Lemma opensbi_init_handler_events (m : StateMachine) (w : World) (img : HSS_BootImage) :
  pBootImage w = Some img ->
  exists evs,
    trace (env (final (boot_opensbi_init_handler P {| self := m; env := w |})))
    = trace w ++ evs
    /\ Forall (delivers_to_member img (target (pInstanceData m))) evs
    /\ (primary_boot_hart img (target (pInstanceData m)) = false ->
        final (boot_opensbi_init_handler P {| self := m; env := w |})
        = {| self := m; env := w |}).
Proof.
  intros Himg.
  unfold boot_opensbi_init_handler, assert_image, common_boot_message_delivery,
    IPI_MessageAlloc, IPI_MessageDeliver, image.
  mrun. rewrite Himg. mrun.
  destruct (primary_boot_hart img (target (pInstanceData m))) eqn:Hprimary; mrun.
  2:{ exists []. rewrite app_nil_r. repeat split. constructor. }
  destruct (iterator (pInstanceData m) <? ARRAY_SIZE_bootMachine) eqn:Hiter; mrun.
  2:{ exists []. rewrite app_nil_r. repeat split; [constructor | discriminate]. }
  destruct (Z.to_nat (iterator (pInstanceData m))) as [| [| [| [| n]]]]; mrun.
  all: repeat (split_tests;
               try match goal with
                   | |- context [find ?f ?l] => destruct (find f l) eqn:?; mrun
                   end);
    rewrite ?Himg; mrun; split_tests;
    rewrite <- ?app_assoc; cbn [app];
    (eexists; split; [try reflexivity; try now rewrite app_nil_r |]);
    (split; [| discriminate]);
    repeat (apply Forall_cons; split); try apply Forall_nil;
    cbn; rewrite ?Hprimary; repeat split; auto.
  all: try (apply Nat.eqb_neq; assumption).
  all: try (apply Z.eqb_eq; assumption).
Qed.

(** C7, as amended.  The instance of a hart acts as primary of its
    boot-set when the hart's own descriptor has chunks and an entry point,
    whatever its index in the set.  Only such an instance tells the domain
    registry anything in [register_harts], and what it registers is itself
    and the harts with its entry point, under its own name as boot hart;
    only such an instance sends anything in the peer iteration of
    OpenSBIInit, and what it sends are entry-point messages to other harts
    with its entry point.  An instance whose hart has no chunks or no entry
    point registers nothing and its OpenSBIInit handler does nothing. *)
Theorem only_harts_with_chunks_act_as_primary (m : StateMachine) (w : World)
    (img : HSS_BootImage) :
  let c := {| self := m; env := w |} in
  let tgt := target (pInstanceData m) in
  pBootImage w = Some img ->
  (exists evs,
     trace (env (final (register_harts P c))) = trace w ++ evs
     /\ Forall (registers_member img tgt) evs)
  /\ (exists evs,
       trace (env (final (boot_opensbi_init_handler P c))) = trace w ++ evs
       /\ Forall (delivers_to_member img tgt) evs)
  /\ (primary_boot_hart img tgt = false ->
      trace (env (final (register_harts P c))) = trace w
      /\ final (boot_opensbi_init_handler P c) = c).
Proof.
  cbv zeta. intros Himg.
  destruct (register_harts_events m w img Himg) as (evs1 & Htr1 & Hall1 & Hnone1).
  destruct (opensbi_init_handler_events m w img Himg) as (evs2 & Htr2 & Hall2 & Hnone2).
  split; [exists evs1; split; assumption |].
  split; [exists evs2; split; assumption |].
  intros Hprimary. split; [| apply Hnone2; exact Hprimary].
  rewrite Htr1, (Hnone1 Hprimary). apply app_nil_r.
Qed.

End BootSets.

Lemma only_harts_with_chunks_act_as_primary_witness :
  trace (env (final (register_harts demo_platform
                       {| self := machine_in demo_platform 1 BOOT_SETUP_PMP;
                          env := booted_world boot_set_image [] |}))) = []
  /\ final (boot_opensbi_init_handler demo_platform
              {| self := machine_in demo_platform 1 BOOT_SETUP_PMP;
                 env := booted_world boot_set_image [] |})
     = {| self := machine_in demo_platform 1 BOOT_SETUP_PMP;
          env := booted_world boot_set_image [] |}.
Proof.
  destruct (only_harts_with_chunks_act_as_primary demo_platform
              (machine_in demo_platform 1 BOOT_SETUP_PMP)
              (booted_world boot_set_image []) boot_set_image eq_refl)
    as (_ & _ & Hidle).
  apply Hidle. vm_compute. reflexivity.
Defined.

(** C7 fails as stated.  In an image whose harts 1 and 2 share an entry
    point and whose chunks belong to hart 2, the lowest-indexed member of
    the boot-set is hart 1, yet it is the instance of hart 2 that registers
    the domain and sends hart 1 its entry-point message, while the instance
    of hart 1 registers nothing. *)
Lemma primary_not_lowest_indexed_counterexample :
  let w := booted_world late_primary_image [] in
  let hart1 := machine_in demo_platform 0 BOOT_OPENSBI_INIT in
  let hart2 := machine_in demo_platform 1 BOOT_OPENSBI_INIT in
  boot_set late_primary_image HSS_HART_U54_2 = [HSS_HART_U54_1; HSS_HART_U54_2]
  /\ lowest_indexed_member late_primary_image HSS_HART_U54_2 = HSS_HART_U54_1
  /\ trace (env (final (register_harts demo_platform {| self := hart2; env := w |})))
     = [domains_register_hart HSS_HART_U54_1 HSS_HART_U54_2;
        domains_register_hart HSS_HART_U54_2 HSS_HART_U54_2;
        debug_printf LOG_NORMAL "Registering domain";
        domains_register_boot_hart "u54_2" 6 HSS_HART_U54_2 1 2147483648 0 0 0]
  /\ trace (env (final (boot_opensbi_init_handler demo_platform
                          {| self := hart2; env := w |})))
     = [ipi_alloc 0;
        ipi_deliver 0 HSS_HART_U54_1 IPI_MSG_OPENSBI_INIT 1 2147483648 0 true]
  /\ trace (env (final (register_harts demo_platform {| self := hart1; env := w |})))
     = []
  /\ trace (env (final (boot_opensbi_init_handler demo_platform
                          {| self := hart1; env := w |})))
     = [].
Proof. cbv zeta. repeat split; vm_compute; reflexivity. Qed.

(** ** Slots on the failure path *)

(** C6.  The specification asks that a slot allocated by the core is freed on the
    failure path into Error.  [common_boot_message_delivery] allocates a
    slot and, when the delivery fails, goes to Error without freeing it, and
    [boot_error_handler] frees nothing: hart 1, about to send hart 2 its
    entry-point message over a transport that refuses it, reaches Complete
    holding slot 0, which the coordinator still counts as in use.  Run from
    Init through the dispatcher the same boot ends in Complete holding two
    slots.  [HSS_Boot_PMPSetupRequest], in the same situation, frees the
    slot.  A second way to Complete with a slot held: in Wait,
    [check_for_ipi_acks] overwrites its result at every auxiliary slot it
    polls, so that hart 1, whose own message is outstanding in slot 1 while
    the message of hart 2 is complete, goes to Complete holding slot 1. *)
Theorem failed_delivery_leaks_slot :
  let P := refusing_platform in
  let c1 := final (boot_opensbi_init_handler P opensbi_ctx) in
  let c2 := final (boot_error_handler c1) in
  let boot := final (run_ticks P 20
                       {| self := machine_in P 0 BOOT_INITIALIZATION;
                          env := booted_world boot_set_image all_slots |}) in
  (held_slots P (pInstanceData (self opensbi_ctx)) = []
   /\ ipi_in_use (env opensbi_ctx) = []
   /\ state (self c1) = BOOT_ERROR
   /\ state (self c2) = BOOT_COMPLETE
   /\ held_slots P (pInstanceData (self c2)) = [0]
   /\ ipi_in_use (env c2) = [0]
   /\ trace (env c2)
      = [ipi_alloc 0;
         ipi_deliver 0 HSS_HART_U54_2 IPI_MSG_OPENSBI_INIT 1 2147483648 0 false;
         debug_printf LOG_ERROR "sbi_init failed";
         debug_printf LOG_ERROR "WARNING: Boot Error - transitioning to IDLE"])
  /\ (state (self boot) = BOOT_COMPLETE
      /\ held_slots P (pInstanceData (self boot)) = [1; 0]
      /\ ipi_in_use (env boot) = [1; 0])
  /\ trace (final (HSS_Boot_PMPSetupRequest P HSS_HART_U54_2
                     (booted_world boot_set_image [])))
     = [ipi_alloc 0;
        ipi_deliver 0 HSS_HART_U54_2 IPI_MSG_PMP_SETUP 0 0 0 false;
        debug_printf LOG_NORMAL "failed to send message, so freeing";
        ipi_free 0]
  /\ (let c3 := final (boot_wait_handler demo_platform partial_ack_ctx) in
      held_slots demo_platform (pInstanceData (self partial_ack_ctx)) = [1; 0]
      /\ ipi_completed (env partial_ack_ctx) = [0]
      /\ state (self c3) = BOOT_COMPLETE
      /\ held_slots demo_platform (pInstanceData (self c3)) = [1]
      /\ ipi_in_use (env c3) = [1]
      /\ trace (env c3) = [ipi_free 0]).
Proof. cbv zeta. repeat split; vm_compute; reflexivity. Qed.
